(** * Heart Disease Risk Analyzer: validation, encoding and model dispatch

    A shallow embedding of [GUI.py] (class [HeartDiseasePredictor]): the
    field table, the validation loop, the encoding loop, the call of the
    scaler and of the selected model, and the loading of the artifacts at
    start-up.  Widgets are reduced to what the logic reads from them (the
    text returned by [widget.get()]) and what it writes to them (the result
    text, its colour and the status bar); message boxes, [joblib.load] and
    the calls into the unpickled objects are recorded as events.

    Text typed by the user is modelled by [string] over code points below
    128, the fixed messages are given in UTF-8; a Python [float] is an
    IEEE-754 binary64 value ([spec_float] at precision 53).  On such
    text [str.strip] drops TAB, LF, VT, FF, CR, FS, GS, RS, US and the
    space, while [float] skips TAB, LF, VT, FF, CR and the space only:
    the two are kept apart, since [validate_inputs] converts the stripped
    text and the encoding loop of [predict] the text as typed. *)

From Stdlib Require Import ZArith NArith List String Ascii Bool Lia.
From Stdlib Require Import Floats.SpecFloat.
Import ListNotations.

Local Open Scope string_scope.
Local Open Scope Z_scope.

(** ** Python strings *)

Module PyStr.

(** [str.isspace] on one character: TAB, LF, VT, FF, CR, the four
    separators FS, GS, RS, US and the space. *)
Definition is_space (c : ascii) : bool :=
  let n := N_of_ascii c in
  ((9 <=? n)%N && (n <=? 13)%N) || ((28 <=? n)%N && (n <=? 32)%N).

Fixpoint lstrip (s : string) : string :=
  match s with
  | EmptyString => EmptyString
  | String c t => if is_space c then lstrip t else s
  end.

Fixpoint rstrip (s : string) : string :=
  match s with
  | EmptyString => EmptyString
  | String c t =>
      match rstrip t with
      | EmptyString => if is_space c then EmptyString else String c EmptyString
      | String _ _ as r => String c r
      end
  end.

(** [s.strip()] with no argument. *)
Definition strip (s : string) : string := rstrip (lstrip s).

Definition is_lower (c : ascii) : bool :=
  let n := N_of_ascii c in (97 <=? n)%N && (n <=? 122)%N.

Definition is_upper (c : ascii) : bool :=
  let n := N_of_ascii c in (65 <=? n)%N && (n <=? 90)%N.

Definition upper (c : ascii) : ascii :=
  if is_lower c then ascii_of_N (N_of_ascii c - 32) else c.

Definition lower (c : ascii) : ascii :=
  if is_upper c then ascii_of_N (N_of_ascii c + 32) else c.

Fixpoint lower_all (s : string) : string :=
  match s with
  | EmptyString => EmptyString
  | String c t => String (lower c) (lower_all t)
  end.

(** [s.capitalize()]: first character upper-cased, the rest lower-cased. *)
Definition capitalize (s : string) : string :=
  match s with
  | EmptyString => EmptyString
  | String c t => String (upper c) (lower_all t)
  end.

(** The truth value of a string: [not val] holds for the empty string. *)
Definition truthy (s : string) : bool :=
  match s with EmptyString => false | String _ _ => true end.

Fixpoint contains_char (q : ascii) (s : string) : bool :=
  match s with
  | EmptyString => false
  | String c t => Ascii.eqb c q || contains_char q t
  end.

Definition dquote : ascii := "034"%char.

(** Whether no character of a text is a whitespace of [str.isspace]. *)
Fixpoint no_space (s : string) : bool :=
  match s with
  | EmptyString => true
  | String c t => negb (is_space c) && no_space t
  end.

(** Whether every character of a text is an ASCII character (a code point
    below 128). *)
Fixpoint ascii_text (s : string) : bool :=
  match s with
  | EmptyString => true
  | String c t => (N_of_ascii c <? 128)%N && ascii_text t
  end.

Definition hex_digit (n : N) : ascii :=
  if (n <? 10)%N then ascii_of_N (48 + n) else ascii_of_N (87 + n).

Definition escape_char (quote c : ascii) : string :=
  let n := N_of_ascii c in
  if Ascii.eqb c "\" then "\\"
  else if Ascii.eqb c quote then String "\" (String c EmptyString)
  else if (n =? 9)%N then "\t"
  else if (n =? 10)%N then "\n"
  else if (n =? 13)%N then "\r"
  else if (n <? 32)%N || (127 <=? n)%N
       then String "\" (String "x" (String (hex_digit (n / 16))
              (String (hex_digit (n mod 16)) EmptyString)))
  else String c EmptyString.

Fixpoint escape (quote : ascii) (s : string) : string :=
  match s with
  | EmptyString => EmptyString
  | String c t => escape_char quote c ++ escape quote t
  end.

(** [repr(s)]: single quotes, unless the text has a single quote and no
    double quote. *)
Definition repr (s : string) : string :=
  let quote : ascii :=
    if contains_char "'" s && negb (contains_char dquote s) then dquote else "'"%char in
  String quote (escape quote s ++ String quote EmptyString).

End PyStr.

(** ** Python floats *)

Module PyFloat.
Import PyStr.

Definition prec : Z := 53.
Definition emax : Z := 1024.

(** A binary64 value. *)
Abbreviation float64 := spec_float.

(** [float(z)] for an integer [z], as [numpy] converts the integer codes
    when it builds a float array: rounded to nearest, ties to even. *)
Definition of_Z (z : Z) : float64 := binary_normalize prec emax z 0 false.

(** The binary64 value nearest to [(-1)^neg * m * 10^e10]. *)
Definition of_decimal (neg : bool) (m : N) (e10 : Z) : float64 :=
  match m with
  | N0 => S754_zero neg
  | Npos p =>
      if 0 <=? e10
      then binary_round prec emax neg (p * Z.to_pos (10 ^ e10))%positive 0
      else
        let '(q, e, l) :=
          SFdiv_core_binary prec emax (Zpos p) 0 (10 ^ (- e10)) 0 in
        binary_round_aux prec emax neg q e l
  end.

Definition digit_of (c : ascii) : option N :=
  let n := N_of_ascii c in
  if (48 <=? n)%N && (n <=? 57)%N then Some (n - 48)%N else None.

(** The tail of a [digitpart]: digits, each optionally preceded by one
    underscore.  [v] is the value read so far and [k] the number of
    digits. *)
Fixpoint digits_tail (v k : N) (s : string) {struct s} : N * N * string :=
  match s with
  | EmptyString => (v, k, s)
  | String c t =>
      match digit_of c with
      | Some d => digits_tail (10 * v + d)%N (k + 1)%N t
      | None =>
          if Ascii.eqb c "_" then
            match t with
            | String c' t' =>
                match digit_of c' with
                | Some d => digits_tail (10 * v + d)%N (k + 1)%N t'
                | None => (v, k, s)
                end
            | EmptyString => (v, k, s)
            end
          else (v, k, s)
      end
  end.

(** [digitpart ::= digit (["_"] digit)*] *)
Definition digitpart (v k : N) (s : string) : option (N * N * string) :=
  match s with
  | EmptyString => None
  | String c t =>
      match digit_of c with
      | Some d => Some (digits_tail (10 * v + d)%N (k + 1)%N t)
      | None => None
      end
  end.

(** [number ::= [digitpart] "." digitpart | digitpart ["."]]; the result
    is the digits read as one integer, the number of digits after the
    point, and the unread text. *)
Definition number (s : string) : option (N * N * string) :=
  match digitpart 0 0 s with
  | Some (v, _, String "." r) =>
      match digitpart v 0 r with
      | Some res => Some res
      | None => Some (v, 0%N, r)
      end
  | Some (v, _, r) => Some (v, 0%N, r)
  | None =>
      match s with
      | String "." r => digitpart 0 0 r
      | _ => None
      end
  end.

Definition sign (s : string) : bool * string :=
  match s with
  | String "-" r => (true, r)
  | String "+" r => (false, r)
  | _ => (false, s)
  end.

(** [exponent ::= ("e" | "E") [sign] digitpart], read up to the end of the
    text; no text left means no exponent. *)
Definition exponent (s : string) : option Z :=
  match s with
  | EmptyString => Some 0
  | String c r =>
      if Ascii.eqb c "e" || Ascii.eqb c "E" then
        let (neg, r') := sign r in
        match digitpart 0 0 r' with
        | Some (v, _, EmptyString) =>
            Some (if neg then - Z.of_N v else Z.of_N v)
        | _ => None
        end
      else None
  end.

Definition floatnumber (neg : bool) (s : string) : option float64 :=
  match number s with
  | Some (m, kf, r) =>
      match exponent r with
      | Some e => Some (of_decimal neg m (e - Z.of_N kf))
      | None => None
      end
  | None => None
  end.

Definition inf_or_nan (neg : bool) (s : string) : option float64 :=
  let l := lower_all s in
  if String.eqb l "inf" || String.eqb l "infinity" then Some (S754_infinity neg)
  else if String.eqb l "nan" then Some S754_nan
  else None.

(** The whitespace [float] skips around its argument: TAB, LF, VT, FF, CR
    and the space.  The separators FS, GS, RS and US, which [str.strip]
    drops, are not skipped. *)
Definition is_float_space (c : ascii) : bool :=
  let n := N_of_ascii c in
  ((9 <=? n)%N && (n <=? 13)%N) || (n =? 32)%N.

Fixpoint skip_leading (s : string) : string :=
  match s with
  | EmptyString => EmptyString
  | String c t => if is_float_space c then skip_leading t else s
  end.

Fixpoint skip_trailing (s : string) : string :=
  match s with
  | EmptyString => EmptyString
  | String c t =>
      match skip_trailing t with
      | EmptyString => if is_float_space c then EmptyString else String c EmptyString
      | String _ _ as r => String c r
      end
  end.

(** The text [float] parses: its argument without the whitespace it skips
    at both ends. *)
Definition skip_spaces (s : string) : string := skip_trailing (skip_leading s).

(** [float(s)] for a string [s]: the whitespace [float] skips is dropped
    at both ends, then [[sign] (floatnumber | infinity | nan)] must match
    the whole text.  [None] stands for the [ValueError] the call raises. *)
Definition float (s : string) : option float64 :=
  let (neg, r) := sign (skip_spaces s) in
  match floatnumber neg r with
  | Some f => Some f
  | None => inf_or_nan neg r
  end.

End PyFloat.

Import PyStr PyFloat.

(** ** Python values, exceptions and ordered dictionaries *)

(** The numbers the prediction path handles: the integer codes of the
    categorical tables and the floats read from the entry fields. *)
Inductive pynum :=
| PyInt (z : Z)
| PyFloat (f : float64).

Definition is_float (x : pynum) : bool :=
  match x with PyFloat _ => true | PyInt _ => false end.

Definition to_float (x : pynum) : pynum :=
  match x with PyInt z => PyFloat (of_Z z) | PyFloat _ => x end.

(** [x == 1] *)
Definition eq_one (x : pynum) : bool :=
  match x with
  | PyInt z => z =? 1
  | PyFloat f => SFeqb f (of_Z 1)
  end.

(** A two-dimensional array, row by row. *)
Definition ndarray := list (list pynum).

(** [np.array(rows)]: one float among the numbers makes every number a
    float. *)
Definition np_array (rows : list (list pynum)) : ndarray :=
  if existsb (existsb is_float) rows then map (map to_float) rows else rows.

(** The exceptions below [Exception] that occur here. *)
Inductive pyexn :=
| ValueError (msg : string)
| KeyError (key : string)
| IndexError (msg : string)
| OtherError (cls msg : string).

(** [str(e)] *)
Definition exn_str (e : pyexn) : string :=
  match e with
  | ValueError msg => msg
  | KeyError key => repr key
  | IndexError msg => msg
  | OtherError _ msg => msg
  end.

(** A dictionary keeps its keys in insertion order. *)
Module Dict.

Definition t (V : Type) := list (string * V).

Fixpoint get {V} (d : t V) (k : string) : option V :=
  match d with
  | [] => None
  | (k', v) :: r => if String.eqb k' k then Some v else get r k
  end.

(** [k in d] *)
Definition contains {V} (d : t V) (k : string) : bool :=
  match get d k with Some _ => true | None => false end.

(** [d[k] = v] *)
Fixpoint set {V} (d : t V) (k : string) (v : V) : t V :=
  match d with
  | [] => [(k, v)]
  | (k', v') :: r =>
      if String.eqb k' k then (k', v) :: r else (k', v') :: set r k v
  end.

(** [list(d.keys())] *)
Definition keys {V} (d : t V) : list string := map fst d.

(** The truth value of [d]: an empty dictionary is false. *)
Definition truthy {V} (d : t V) : bool :=
  match d with [] => false | _ :: _ => true end.

(** A dictionary display [{k1: v1, ..., kn: vn}]. *)
Definition literal {V} (l : list (string * V)) : t V :=
  fold_left (fun d kv => set d (fst kv) (snd kv)) l [].

End Dict.

(** ** Effects: message boxes, file loads, calls into the artifacts *)

Inductive event :=
| JoblibLoad (path : string)
| ShowWarning (title message : string)
| ShowError (title message : string)
| Transform (X : ndarray)
| Predict (model_key : string) (X : ndarray).

(** How a call ends: with a value, with an exception below [Exception], or
    with [SystemExit] (which [except Exception] does not catch). *)
Inductive outcome (A : Type) :=
| Return (a : A)
| Raise (e : pyexn)
| SystemExit.

Arguments Return {A} a.
Arguments Raise {A} e.
Arguments SystemExit {A}.

(** A computation: the events it produced, in order, and how it ended. *)
Definition Eff (A : Type) : Type := list event * outcome A.

Definition ret {A} (a : A) : Eff A := ([], Return a).

Definition bind {A B} (c : Eff A) (k : A -> Eff B) : Eff B :=
  match c with
  | (evs, Return a) => let (evs', o) := k a in ((evs ++ evs')%list, o)
  | (evs, Raise e) => (evs, Raise e)
  | (evs, SystemExit) => (evs, SystemExit)
  end.

Definition emit (ev : event) : Eff unit := ([ev], Return tt).

Definition raise {A} (e : pyexn) : Eff A := ([], Raise e).

(** [exit()] *)
Definition exit {A} : Eff A := ([], SystemExit).

(** [try: c except ...: h]: the handler says which exceptions it catches. *)
Definition try_except {A} (c : Eff A) (h : pyexn -> option (Eff A)) : Eff A :=
  match c with
  | (evs, Raise e) =>
      match h e with
      | Some k => let (evs', o) := k in ((evs ++ evs')%list, o)
      | None => (evs, Raise e)
      end
  | _ => c
  end.

Declare Scope eff_scope.
Delimit Scope eff_scope with eff.
Notation "x <- c ;; k" := (bind c (fun x => k))
  (at level 100, c at next level, right associativity) : eff_scope.
Notation "' p <- c ;; k" := (bind c (fun p => k))
  (at level 100, p pattern, c at next level, right associativity) : eff_scope.
Notation "c ;; k" := (bind c (fun _ => k))
  (at level 100, right associativity) : eff_scope.
Local Open Scope eff_scope.

(** [for x in l: body(x)] *)
Fixpoint for_each {A} (l : list A) (body : A -> Eff unit) : Eff unit :=
  match l with
  | [] => ret tt
  | x :: r => body x ;; for_each r body
  end.

(** [data = []; for x in l: data.append(body(x))] *)
Fixpoint for_append {A B} (l : list A) (body : A -> Eff B) (data : list B)
  : Eff (list B) :=
  match l with
  | [] => ret data
  | x :: r => v <- body x ;; for_append r body (data ++ [v])%list
  end.

(** [d[k]], which raises [KeyError(k)] for a missing key. *)
Definition getitem {V} (d : Dict.t V) (k : string) : Eff V :=
  match Dict.get d k with
  | Some v => ret v
  | None => raise (KeyError k)
  end.

(** ** The artifacts *)

(** An object unpickled by [joblib.load]: what calling its [transform] and
    its [predict] gives.  The objects are fitted once and not changed by a
    call, so each method is a function of its argument. *)
Module Artifact.

Record t := {
  transform : ndarray -> pyexn + ndarray;
  predict : ndarray -> pyexn + list pynum }.

End Artifact.

(** The files on disk, as [joblib.load] sees them. *)
Definition FileSystem := string -> pyexn + Artifact.t.

Definition joblib_load (fs : FileSystem) (path : string) : Eff Artifact.t :=
  emit (JoblibLoad path) ;;
  match fs path with
  | inl e => raise e
  | inr o => ret o
  end.

(** ** class HeartDiseasePredictor *)

Definition nl : string := String "010"%char EmptyString.

(** A categorical table: label to integer code. *)
Definition options := Dict.t Z.

(** An input widget, reduced to the text [widget.get()] returns. *)
Definition widget := string.

Definition widget_get (w : widget) : string := w.

(** The state of the application object that validation and prediction
    read and write. *)
Record App := {
  models : Dict.t Artifact.t;
  scaler : option Artifact.t;
  entries : Dict.t (widget * option options);
  model_var : string;
  result_var : string;
  result_foreground : string;
  status_bar : string }.

(** [show_error(title, message, fatal)] *)
Definition show_error (title message : string) (fatal : bool) : Eff unit :=
  emit (ShowError title message) ;;
  if fatal then exit else ret tt.

(** [load_scaler]: a failed load shows the error and exits; the function
    would otherwise fall off its end and return [None]. *)
Definition load_scaler (fs : FileSystem) : Eff (option Artifact.t) :=
  try_except
    (o <- joblib_load fs "scaler.pkl" ;; ret (Some o))
    (fun e => Some (show_error "Critical Error" "Failed to load feature scaler" true ;;
                    ret None)).

Definition model_paths : Dict.t string :=
  Dict.literal
    [ ("BFO", "Models/bfo_optimize_svm_model.pkl");
      ("ACO", "Models/aco_optimize_svm_model.pkl");
      ("DE", "Models/de_optimize_svm_model.pkl");
      ("GA", "Models/ga_optimize_svm_model.pkl");
      ("ABC", "Models/abc_optimize_svm_model.pkl") ].

Definition model_warning (key : string) : event :=
  ShowWarning "Model Warning"
    ("Could not load " ++ key ++ " model. File might be missing or corrupted.").

(** The loop of [load_models] over [model_paths.items()], threading
    [loaded_models] and [failed_models]. *)
Fixpoint load_loop (fs : FileSystem) (paths : list (string * string))
    (loaded_models : Dict.t Artifact.t) (failed_models : list string)
  : Eff (Dict.t Artifact.t * list string) :=
  match paths with
  | [] => ret (loaded_models, failed_models)
  | (key, path) :: rest =>
      ' (loaded, failed) <-
        try_except
          (o <- joblib_load fs path ;;
           ret (Dict.set loaded_models key o, failed_models))
          (fun e => Some (emit (model_warning key) ;;
                          ret (loaded_models, (failed_models ++ [key])%list))) ;;
      load_loop fs rest loaded failed
  end.

Definition load_models (fs : FileSystem) : Eff (Dict.t Artifact.t) :=
  ' (loaded_models, failed_models) <- load_loop fs model_paths [] [] ;;
  (if negb (Dict.truthy loaded_models)
   then show_error "Startup Error" "No models could be loaded" true
   else ret tt) ;;
  ret loaded_models.

(** A row of [get_field_definitions]: label, key, table, tooltip. *)
Definition field_definition : Type :=
  string * string * option options * string.

Definition get_field_definitions : list field_definition :=
  [ ("Age (years)", "age", None, "Patient's age in years");
    ("Sex", "sex", Some (Dict.literal [("Male", 1); ("Female", 0)]),
     "Select patient gender");
    ("Chest Pain Type", "chest pain type",
     Some (Dict.literal [("Typical angina", 1); ("Atypical angina", 2);
                         ("Non-anginal pain", 3); ("Asymptomatic", 4)]),
     "Type of chest pain experienced");
    ("Resting BP (mm Hg)", "resting bp s", None, "Blood pressure at rest (mm Hg)");
    ("Cholesterol (mg/dl)", "cholesterol", None, "Serum cholesterol level");
    ("Fasting Blood Sugar >120mg/dl", "fasting blood sugar",
     Some (Dict.literal [("Yes", 1); ("No", 0)]),
     "Is fasting blood sugar above 120 mg/dl?");
    ("Resting ECG", "resting ecg",
     Some (Dict.literal [("normal", 0); ("ST-T abnormality", 1);
                         ("Left ventricular hypertrophy", 2)]),
     "ECG measurement results");
    ("Max Heart Rate", "max heart rate", None, "Maximum heart rate achieved");
    ("Exercise Angina", "exercise angina",
     Some (Dict.literal [("Yes", 1); ("No", 0)]),
     "Does exercise cause angina?");
    ("Oldpeak", "oldpeak", None, "ST depression induced by exercise");
    ("ST Slope", "ST slope",
     Some (Dict.literal [("upsloping", 1); ("flat", 2); ("downsloping", 3)]),
     "The slope of the peak exercise ST segment") ].

(** The truth value of [opts]: [None] and the empty table are false. *)
Definition opts_truthy (opts : option options) : bool :=
  match opts with
  | Some o => Dict.truthy o
  | None => false
  end.

(** The part of [create_widgets] that fills [self.entries]: a read-only
    combo box showing the first label for a table, an empty entry field
    otherwise. *)
Definition create_widgets (defs : list field_definition)
  : Dict.t (widget * option options) :=
  fold_left
    (fun entries '(label_text, key, opts, tooltip) =>
       match opts with
       | Some o =>
           if Dict.truthy o
           then Dict.set entries key (hd EmptyString (Dict.keys o), Some o)
           else Dict.set entries key (EmptyString, None)
       | None => Dict.set entries key (EmptyString, None)
       end)
    defs [].

Definition defaults : Dict.t string :=
  Dict.literal
    [ ("age", "50"); ("resting bp s", "120"); ("cholesterol", "200");
      ("max heart rate", "150"); ("oldpeak", "1.0") ].

(** [set_default_values]: the text of each entry field that has a default
    is replaced by it (a read-only combo box ignores the insertion). *)
Definition set_default_values (entries : Dict.t (widget * option options))
  : Dict.t (widget * option options) :=
  fold_left
    (fun entries '(key, value) =>
       match Dict.get entries key with
       | Some (_, None) => Dict.set entries key (value, None)
       | _ => entries
       end)
    defaults entries.

Definition initial_result : string :=
  "Heart disease risk assessment results will be shown here" ++ nl ++
  "Note: This tool provides preliminary analysis only - consult a physician for diagnosis".

(** [__init__]: the models, then the scaler, then the widgets. *)
Definition __init__ (fs : FileSystem) : Eff App :=
  models <- load_models fs ;;
  scaler <- load_scaler fs ;;
  ret {| models := models;
         scaler := scaler;
         entries := set_default_values (create_widgets get_field_definitions);
         model_var := hd EmptyString (Dict.keys models);
         result_var := initial_result;
         result_foreground := EmptyString;
         status_bar := "Ready" |}.

(** The body of the loop of [validate_inputs] for one entry. *)
Definition check_entry (key : string) (w : widget) (opts : option options)
  : Eff unit :=
  match opts with
  | None =>
      let val := strip (widget_get w) in
      if negb (PyStr.truthy val)
      then raise (ValueError (capitalize key ++ " cannot be empty"))
      else
        match float val with
        | Some _ => ret tt
        | None => raise (ValueError (capitalize key ++ " must be a numeric value"))
        end
  | Some o =>
      if negb (Dict.contains o (widget_get w))
      then raise (ValueError ("Invalid selection for " ++ key))
      else ret tt
  end.

Definition validate_inputs (self : App) : Eff bool :=
  try_except
    (for_each (entries self) (fun '(key, (w, opts)) => check_entry key w opts) ;;
     ret true)
    (fun ve =>
       match ve with
       | ValueError _ =>
           Some (emit (ShowError "Validation Error" (exn_str ve)) ;; ret false)
       | _ => None
       end).

(** [float(s)] as a call: a text that is no float raises [ValueError]. *)
Definition float_call (s : string) : Eff pynum :=
  match float s with
  | Some f => ret (PyFloat f)
  | None => raise (ValueError ("could not convert string to float: " ++ repr s))
  end.

(** The body of the encoding loop of [predict] for one entry. *)
Definition encode_entry (key : string) (w : widget) (opts : option options)
  : Eff pynum :=
  match opts with
  | Some o =>
      if Dict.truthy o
      then z <- getitem o (widget_get w) ;; ret (PyInt z)
      else float_call (widget_get w)
  | None => float_call (widget_get w)
  end.

(** The encoding loop of [predict]: [data], in the order of the entries. *)
Definition gather_data (self : App) : Eff (list pynum) :=
  for_append (entries self) (fun '(key, (w, opts)) => encode_entry key w opts) [].

(** [self.scaler.transform(arr)] *)
Definition call_transform (sc : option Artifact.t) (arr : ndarray) : Eff ndarray :=
  match sc with
  | None =>
      raise (OtherError "AttributeError"
               "'NoneType' object has no attribute 'transform'")
  | Some o =>
      emit (Transform arr) ;;
      match Artifact.transform o arr with
      | inl e => raise e
      | inr X => ret X
      end
  end.

(** [model.predict(X)] for the model stored under [model_key]. *)
Definition call_predict (model_key : string) (model : Artifact.t) (X : ndarray)
  : Eff (list pynum) :=
  emit (Predict model_key X) ;;
  match Artifact.predict model X with
  | inl e => raise e
  | inr y => ret y
  end.

(** [y[0]] *)
Definition first (y : list pynum) : Eff pynum :=
  match y with
  | p :: _ => ret p
  | [] => raise (IndexError "index 0 is out of bounds for axis 0 with size 0")
  end.

Definition high_risk_text (model_key : string) : string :=
  "Model: " ++ model_key ++ nl ++
  "⚠️ High Risk of Heart Disease Detected" ++ nl ++
  "This is a preliminary analysis suggesting increased risk." ++ nl ++
  "Please consult a cardiologist for comprehensive evaluation.".

Definition low_risk_text (model_key : string) : string :=
  "Model: " ++ model_key ++ nl ++
  "✅ Low Risk of Heart Disease Detected" ++ nl ++
  "No significant indicators found in this analysis." ++ nl ++
  "Regular checkups are still recommended for preventive care.".

(** The three writes that end a successful prediction. *)
Definition display (self : App) (foreground result_text : string) : App :=
  {| models := models self;
     scaler := scaler self;
     entries := entries self;
     model_var := model_var self;
     result_var := result_text;
     result_foreground := foreground;
     status_bar := "Prediction completed successfully" |}.

(** The [try] block of [predict]: encoding, scaling, model look-up, the
    model's call and the display of the label. *)
Definition predict_body (self : App) : Eff App :=
  data <- gather_data self ;;
  let arr := np_array [data] in
  X_new <- call_transform (scaler self) arr ;;
  let model_key := model_var self in
  model <- getitem (models self) model_key ;;
  y <- call_predict model_key model X_new ;;
  pred <- first y ;;
  if eq_one pred
  then ret (display self "darkred" (high_risk_text model_key))
  else ret (display self "darkgreen" (low_risk_text model_key)).

(** [predict]; the result is the application state it leaves. *)
Definition predict (self : App) : Eff App :=
  ok <- validate_inputs self ;;
  if negb ok then ret self
  else
    try_except (predict_body self)
      (fun e => Some (show_error "Analysis Failed" (exn_str e) false ;; ret self)).

(** What the specification calls [encode]: the validation and the encoding
    loop that open [predict]; [None] when validation failed. *)
Definition encode (self : App) : Eff (option (list pynum)) :=
  ok <- validate_inputs self ;;
  if negb ok then ret None
  else data <- gather_data self ;; ret (Some data).

(** The user's input: the text of the widget of field [key] becomes [s]. *)
Definition type_text (entries : Dict.t (widget * option options))
    (key s : string) : Dict.t (widget * option options) :=
  match Dict.get entries key with
  | Some (_, opts) => Dict.set entries key (s, opts)
  | None => entries
  end.

(** The user fills the form: each text of [raw] is typed into its field. *)
Definition fill_form (self : App) (raw : list (string * string)) : App :=
  {| models := models self;
     scaler := scaler self;
     entries := fold_left (fun es '(key, s) => type_text es key s) raw (entries self);
     model_var := model_var self;
     result_var := result_var self;
     result_foreground := result_foreground self;
     status_bar := status_bar self |}.

(** The user picks a model in the combo box. *)
Definition select_model (self : App) (tag : string) : App :=
  {| models := models self;
     scaler := scaler self;
     entries := entries self;
     model_var := tag;
     result_var := result_var self;
     result_foreground := result_foreground self;
     status_bar := status_bar self |}.

(** ** Reading a trace *)

Definition is_load (ev : event) : bool :=
  match ev with JoblibLoad _ => true | _ => false end.

Definition is_warning (ev : event) : bool :=
  match ev with ShowWarning _ _ => true | _ => false end.

Definition is_model_call (ev : event) : bool :=
  match ev with Predict _ _ => true | _ => false end.

Definition is_transform (ev : event) : bool :=
  match ev with Transform _ => true | _ => false end.

(** Whether the check of [validate_inputs] lets an entry pass. *)
Definition field_valid (e : string * (widget * option options)) : bool :=
  let '(key, (w, opts)) := e in
  match check_entry key w opts with
  | (_, Return _) => true
  | _ => false
  end.

(** Whether the step of the encoding loop of [predict] returns for an
    entry. *)
Definition field_encodable (e : string * (widget * option options)) : bool :=
  let '(key, (w, opts)) := e in
  match encode_entry key w opts with
  | (_, Return _) => true
  | _ => false
  end.

(** The value the step of the encoding loop returns for an entry. *)
Definition encoded_by (e : string * (widget * option options)) (v : pynum) : Prop :=
  let '(key, (w, opts)) := e in encode_entry key w opts = ret v.

(** Whether [joblib.load] succeeds on a path. *)
Definition loads (fs : FileSystem) (path : string) : bool :=
  match fs path with inr _ => true | inl _ => false end.

(** How a value of the feature vector comes from its entry. *)
Definition encodes (e : string * (widget * option options)) (v : pynum) : Prop :=
  let '(key, (w, opts)) := e in
  match opts with
  | Some o => exists z, Dict.get o w = Some z /\ v = PyInt z
  | None => exists f, float w = Some f /\ v = PyFloat f
  end.

(** The models of the tags whose file loads, in the order of the paths:
    what the specification asks [loadModels] to return. *)
Definition loaded_models_of (fs : FileSystem) : Dict.t Artifact.t :=
  flat_map (fun '(tag, path) =>
              match fs path with inr o => [(tag, o)] | inl _ => [] end)
           model_paths.

(** The tags whose file does not load, in the order of the paths. *)
Definition failed_tags (fs : FileSystem) : list string :=
  flat_map (fun '(tag, path) => if loads fs path then [] else [tag]) model_paths.

(** The trace of the loop of [load_models]: every path is tried, a failed
    one is followed by its warning. *)
Fixpoint load_trace (fs : FileSystem) (paths : list (string * string)) : list event :=
  match paths with
  | [] => []
  | (key, path) :: rest =>
      JoblibLoad path ::
      ((if loads fs path then [] else [model_warning key]) ++ load_trace fs rest)%list
  end.

(** The dictionary and the list the loop of [load_models] ends with. *)
Fixpoint load_state (fs : FileSystem) (paths : list (string * string))
    (loaded : Dict.t Artifact.t) (failed : list string)
  : Dict.t Artifact.t * list string :=
  match paths with
  | [] => (loaded, failed)
  | (key, path) :: rest =>
      match fs path with
      | inr o => load_state fs rest (Dict.set loaded key o) failed
      | inl _ => load_state fs rest loaded (failed ++ [key])%list
      end
  end.

(** ** Sample artifacts, files and forms *)

(** An artifact whose [transform] is the identity and whose [predict]
    answers [y]. *)
Definition constant_model (y : list pynum) : Artifact.t :=
  {| Artifact.transform := fun X => inr X;
     Artifact.predict := fun _ => inr y |}.

(** An artifact whose calls raise [e]. *)
Definition failing_artifact (e : pyexn) : Artifact.t :=
  {| Artifact.transform := fun _ => inl e;
     Artifact.predict := fun _ => inl e |}.

Definition not_found : pyexn :=
  OtherError "FileNotFoundError" "[Errno 2] No such file or directory".

(** A disk on which the DE and the ABC model are missing. *)
Definition sample_fs : FileSystem :=
  fun path =>
    if String.eqb path "Models/de_optimize_svm_model.pkl"
       || String.eqb path "Models/abc_optimize_svm_model.pkl"
    then inl not_found
    else inr (constant_model [PyInt 1]).

(** A disk without the scaler. *)
Definition no_scaler_fs : FileSystem :=
  fun path =>
    if String.eqb path "scaler.pkl" then inl not_found
    else inr (constant_model [PyInt 1]).

(** A running application with two models, one of which answers 2. *)
Definition sample_app : App :=
  {| models := [("GA", constant_model [PyInt 1]); ("DE", constant_model [PyInt 2])];
     scaler := Some (constant_model []);
     entries := set_default_values (create_widgets get_field_definitions);
     model_var := "GA";
     result_var := initial_result;
     result_foreground := EmptyString;
     status_bar := "Ready" |}.

(** The same application with a scaler that raises. *)
Definition broken_scaler_app : App :=
  {| models := models sample_app;
     scaler := Some (failing_artifact (ValueError "X has 11 features, but StandardScaler is expecting 12 features as input."));
     entries := entries sample_app;
     model_var := model_var sample_app;
     result_var := result_var sample_app;
     result_foreground := result_foreground sample_app;
     status_bar := status_bar sample_app |}.

(** The raw input of the end-to-end scenario. *)
Definition scenario_raw : list (string * string) :=
  [ ("age", "50"); ("sex", "Male"); ("chest pain type", "Typical angina");
    ("resting bp s", "120"); ("cholesterol", "200");
    ("fasting blood sugar", "No"); ("resting ecg", "normal");
    ("max heart rate", "150"); ("exercise angina", "No"); ("oldpeak", "1.0");
    ("ST slope", "upsloping") ].

(** The age typed as the separator FS (code 28) followed by 50; the other
    fields keep their default values. *)
Definition separator_raw : list (string * string) :=
  [ ("age", String "028" "50") ].

(** [[50, 1, 1, 120, 200, 0, 0, 150, 0, 1.0, 1]], the numbers read from
    entry fields being floats. *)
Definition scenario_vector : list pynum :=
  [ PyFloat (of_Z 50); PyInt 1; PyInt 1; PyFloat (of_Z 120); PyFloat (of_Z 200);
    PyInt 0; PyInt 0; PyFloat (of_Z 150); PyInt 0; PyFloat (of_Z 1); PyInt 1 ].

(** ** class ToolTip *)

Module ToolTip.

(** The tooltip window: where it is placed and the text of its label. *)
Record Toplevel := {
  geometry : Z * Z;
  label : string }.

Record t := {
  text : string;
  tooltip_window : option Toplevel }.

(** What the tooltip does to the screen. *)
Inductive event :=
| Create (tw : Toplevel)
| Destroy (tw : Toplevel).

(** What the mouse does to the widget the tooltip is bound to; entering
    comes with the position of the pointer. *)
Inductive mouse :=
| Enter (pointer : Z * Z)
| Leave.

(** [ToolTip(widget, text)] *)
Definition new (text : string) : t :=
  {| text := text; tooltip_window := None |}.

Definition show_tooltip (self : t) (pointer : Z * Z) : list event * t :=
  match tooltip_window self with
  | Some _ => ([], self)
  | None =>
      if negb (PyStr.truthy (text self)) then ([], self)
      else
        let tw := {| geometry := (fst pointer + 10, snd pointer + 10);
                     label := text self |} in
        ([Create tw], {| text := text self; tooltip_window := Some tw |})
  end.

Definition hide_tooltip (self : t) : list event * t :=
  match tooltip_window self with
  | Some tw => ([Destroy tw], {| text := text self; tooltip_window := None |})
  | None => ([], self)
  end.

(** The two bindings made by the constructor. *)
Definition handle (self : t) (m : mouse) : list event * t :=
  match m with
  | Enter pointer => show_tooltip self pointer
  | Leave => hide_tooltip self
  end.

Fixpoint run (self : t) (ms : list mouse) : list event * t :=
  match ms with
  | [] => ([], self)
  | m :: r =>
      let (evs, self') := handle self m in
      let (evs', self'') := run self' r in
      ((evs ++ evs')%list, self'')
  end.

Definition is_create (ev : event) : bool :=
  match ev with Create _ => true | Destroy _ => false end.

Definition is_destroy (ev : event) : bool :=
  match ev with Destroy _ => true | Create _ => false end.

(** The number of tooltip windows a trace leaves on screen, counted from
    [n]. *)
Fixpoint live (evs : list event) (n : Z) : Z :=
  match evs with
  | [] => n
  | Create _ :: r => live r (n + 1)
  | Destroy _ :: r => live r (n - 1)
  end.

(** 1 when the tooltip holds a window, 0 otherwise. *)
Definition held (self : t) : Z :=
  match tooltip_window self with Some _ => 1 | None => 0 end.

End ToolTip.

(** ** The live check of an entry field *)

(** The function [validate] that [add_validation] attaches to the text of
    an entry field: from the text and the status bar, the style of the
    field and the status bar. *)
Definition validate (value status : string) : string * string :=
  if negb (PyStr.truthy value) then ("Valid.TEntry", status)
  else
    match float value with
    | Some _ => ("Valid.TEntry", "Ready")
    | None => ("Invalid.TEntry", "Error: Numeric value required")
    end.

(** ** Clearing the form *)

(** The loop of [clear_fields]: an entry field is emptied, a combo box
    shows its first label; [current(0)] raises on a combo box without
    values, which stops the loop with the widgets before it cleared. *)
Fixpoint clear_widgets (es : list (string * (widget * option options)))
  : list (string * (widget * option options)) * option pyexn :=
  match es with
  | [] => ([], None)
  | (key, (w, opts)) :: r =>
      match opts with
      | None =>
          let (r', e) := clear_widgets r in
          ((key, (EmptyString, None)) :: r', e)
      | Some o =>
          match Dict.keys o with
          | [] => (es, Some (OtherError "TclError" "Index 0 out of range"))
          | k :: _ =>
              let (r', e) := clear_widgets r in
              ((key, (k, Some o)) :: r', e)
          end
      end
  end.

(** [clear_fields]: the state it leaves and the exception, if any. *)
Definition clear_fields (self : App) : App * option pyexn :=
  match clear_widgets (entries self) with
  | (es, Some e) =>
      ({| models := models self;
          scaler := scaler self;
          entries := es;
          model_var := model_var self;
          result_var := result_var self;
          result_foreground := result_foreground self;
          status_bar := status_bar self |}, Some e)
  | (es, None) =>
      ({| models := models self;
          scaler := scaler self;
          entries := es;
          model_var := model_var self;
          result_var := initial_result;
          result_foreground := "black";
          status_bar := "Fields cleared" |}, None)
  end.

(** ** A session *)

(** What the user can do: type a text into an entry field, pick a label
    in a read-only combo box, pick a model in the read-only model box,
    press "Analyze Risk" (or Ctrl+P), press "Clear Fields". *)
Inductive action :=
| TypeText (key s : string)
| Choose (key label : string)
| ChooseModel (tag : string)
| Analyze
| Clear.

Definition with_entries (self : App) (es : Dict.t (widget * option options))
  : App :=
  {| models := models self;
     scaler := scaler self;
     entries := es;
     model_var := model_var self;
     result_var := result_var self;
     result_foreground := result_foreground self;
     status_bar := status_bar self |}.

Definition with_status (self : App) (status : string) : App :=
  {| models := models self;
     scaler := scaler self;
     entries := entries self;
     model_var := model_var self;
     result_var := result_var self;
     result_foreground := result_foreground self;
     status_bar := status |}.

(** One action; an action the widgets do not allow (a text for a combo
    box, a label or a tag that is not among the values) changes nothing.
    Writing an entry field runs its live check, which may write the status
    bar. *)
Definition step (self : App) (a : action) : list event * App :=
  match a with
  | TypeText key s =>
      match Dict.get (entries self) key with
      | Some (_, None) =>
          ([], with_status (with_entries self (Dict.set (entries self) key (s, None)))
                 (snd (validate s (status_bar self))))
      | _ => ([], self)
      end
  | Choose key label =>
      match Dict.get (entries self) key with
      | Some (_, Some o) =>
          if Dict.contains o label
          then ([], with_entries self (Dict.set (entries self) key (label, Some o)))
          else ([], self)
      | _ => ([], self)
      end
  | ChooseModel tag =>
      if Dict.contains (models self) tag then ([], select_model self tag)
      else ([], self)
  | Analyze =>
      match predict self with
      | (evs, Return self') => (evs, self')
      | (evs, _) => (evs, self)
      end
  | Clear => ([], fst (clear_fields self))
  end.

Fixpoint run (self : App) (actions : list action) : list event * App :=
  match actions with
  | [] => ([], self)
  | a :: r =>
      let (evs, self') := step self a in
      let (evs', self'') := run self' r in
      ((evs ++ evs')%list, self'')
  end.

(** Whether a combo box shows one of its labels. *)
Definition entry_shows_label (e : string * (widget * option options)) : bool :=
  match e with
  | (_, (w, Some o)) => Dict.contains o w
  | (_, (_, None)) => true
  end.

(** What holds of the application all along a session: a scaler is
    loaded, the selected tag is registered, every combo box shows one of
    its labels. *)
Definition well_formed (self : App) : bool :=
  match scaler self with Some _ => true | None => false end
  && Dict.contains (models self) (model_var self)
  && forallb entry_shows_label (entries self).

(** The keys and the tables of the entries, without the texts. *)
Definition layout (es : Dict.t (widget * option options))
  : list (string * option options) :=
  map (fun e => (fst e, snd (snd e))) es.

Definition is_box (ev : event) : bool :=
  match ev with ShowError _ _ | ShowWarning _ _ => true | _ => false end.

(** Whether the check of [validate_inputs] lets an entry pass, said on the
    text and the table alone. *)
Definition entry_ok (e : string * (widget * option options)) : bool :=
  match e with
  | (_, (w, None)) => match float (strip w) with Some _ => true | None => false end
  | (_, (w, Some o)) => Dict.contains o w
  end.

(** Whether the key and the text of an entry are made of ASCII characters. *)
Definition ascii_entry (e : string * (widget * option options)) : bool :=
  ascii_text (fst e) && ascii_text (fst (snd e)).

(** Whether the whitespace [str.strip] drops around the text of an entry
    field is whitespace [float] skips: no FS, GS, RS or US next to the
    ends. *)
Definition padding_skipped (e : string * (widget * option options)) : bool :=
  match e with
  | (_, (w, None)) => String.eqb (skip_spaces w) (strip w)
  | (_, (_, Some _)) => true
  end.

(** The form with the whitespace around the text of each entry field
    removed. *)
Definition strip_entries (es : Dict.t (widget * option options))
  : Dict.t (widget * option options) :=
  map (fun e => match e with
                | (key, (w, None)) => (key, (strip w, None))
                | _ => e
                end) es.

Definition is_numeric (e : string * (widget * option options)) : bool :=
  match e with (_, (_, None)) => true | _ => false end.

(** The entry [create_widgets] makes of a row: an empty entry field when
    the row has no table or an empty one, a combo box showing the first
    label otherwise. *)
Definition widget_of_row (row : field_definition)
  : string * (widget * option options) :=
  let '(label_text, key, opts, tooltip) := row in
  match opts with
  | Some o =>
      if Dict.truthy o then (key, (hd EmptyString (Dict.keys o), Some o))
      else (key, (EmptyString, None))
  | None => (key, (EmptyString, None))
  end.

Definition row_key (row : field_definition) : string :=
  let '(label_text, key, opts, tooltip) := row in key.

(** A widget as [clear_fields] leaves it. *)
Definition cleared (e : string * (widget * option options))
  : string * (widget * option options) :=
  match e with
  | (key, (_, None)) => (key, (EmptyString, None))
  | (key, (_, Some o)) => (key, (hd EmptyString (Dict.keys o), Some o))
  end.

Definition is_error_box (ev : event) : bool :=
  match ev with ShowError _ _ => true | _ => false end.

Definition is_analyze (a : action) : bool :=
  match a with Analyze => true | _ => false end.

(** The events a session can produce: the two error boxes of [predict]
    and the calls into the artifacts. *)
Definition session_event (ev : event) : bool :=
  match ev with
  | ShowError title _ =>
      String.eqb title "Validation Error" || String.eqb title "Analysis Failed"
  | Transform _ | Predict _ _ => true
  | JoblibLoad _ | ShowWarning _ _ => false
  end.

(** ** Facts on stripping and on [float] *)

Lemma lstrip_lstrip (s : string) : lstrip (lstrip s) = lstrip s.
Proof.
  induction s as [|c t IH]; simpl; [reflexivity|].
  destruct (is_space c) eqn:Hc; [exact IH|].
  simpl. rewrite Hc. reflexivity.
Qed.

Lemma lstrip_rstrip (s : string) : lstrip s = s -> lstrip (rstrip s) = rstrip s.
Proof.
  destruct s as [|c t]; simpl; [reflexivity|].
  destruct (is_space c) eqn:Hc.
  - intros H. exfalso.
    assert (Hlen : forall u, (String.length (lstrip u) <= String.length u)%nat).
    { induction u as [|d u IHu]; simpl; [lia|].
      destruct (is_space d); simpl; lia. }
    specialize (Hlen t). rewrite H in Hlen. simpl in Hlen. lia.
  - intros _. destruct (rstrip t); simpl; rewrite Hc; reflexivity.
Qed.

Lemma rstrip_rstrip (s : string) : rstrip (rstrip s) = rstrip s.
Proof.
  induction s as [|c t IH]; simpl; [reflexivity|].
  destruct (rstrip t) as [|c' r] eqn:Hr.
  - destruct (is_space c) eqn:Hc; simpl; [reflexivity|].
    rewrite Hc. reflexivity.
  - change (rstrip (String c (String c' r)))
      with (match rstrip (String c' r) with
            | EmptyString => if is_space c then EmptyString else String c EmptyString
            | String _ _ as r0 => String c r0
            end).
    rewrite IH. reflexivity.
Qed.

Lemma strip_strip (s : string) : strip (strip s) = strip s.
Proof.
  unfold strip.
  rewrite (lstrip_rstrip (lstrip s) (lstrip_lstrip s)).
  apply rstrip_rstrip.
Qed.

(** The whitespace [float] skips is whitespace [str.strip] drops. *)
Lemma float_space_is_space (c : ascii) :
  is_float_space c = true -> is_space c = true.
Proof.
  unfold is_float_space, is_space. cbv zeta.
  destruct (9 <=? N_of_ascii c)%N eqn:H1, (N_of_ascii c <=? 13)%N eqn:H2;
    cbn [andb orb]; try reflexivity;
    intros H; apply N.eqb_eq in H; rewrite H; reflexivity.
Qed.

Lemma skip_leading_idem (s : string) :
  skip_leading (skip_leading s) = skip_leading s.
Proof.
  induction s as [|c t IH]; simpl; [reflexivity|].
  destruct (is_float_space c) eqn:Hc; [exact IH|].
  simpl. rewrite Hc. reflexivity.
Qed.

Lemma skip_leading_trailing (s : string) :
  skip_leading s = s -> skip_leading (skip_trailing s) = skip_trailing s.
Proof.
  destruct s as [|c t]; simpl; [reflexivity|].
  destruct (is_float_space c) eqn:Hc.
  - intros H. exfalso.
    assert (Hlen : forall u,
               (String.length (skip_leading u) <= String.length u)%nat).
    { induction u as [|d u IHu]; simpl; [lia|].
      destruct (is_float_space d); simpl; lia. }
    specialize (Hlen t). rewrite H in Hlen. simpl in Hlen. lia.
  - intros _. destruct (skip_trailing t); simpl; rewrite Hc; reflexivity.
Qed.

Lemma skip_trailing_idem (s : string) :
  skip_trailing (skip_trailing s) = skip_trailing s.
Proof.
  induction s as [|c t IH]; simpl; [reflexivity|].
  destruct (skip_trailing t) as [|c' r] eqn:Hr.
  - destruct (is_float_space c) eqn:Hc; simpl; [reflexivity|].
    rewrite Hc. reflexivity.
  - change (skip_trailing (String c (String c' r)))
      with (match skip_trailing (String c' r) with
            | EmptyString =>
                if is_float_space c then EmptyString else String c EmptyString
            | String _ _ as r0 => String c r0
            end).
    rewrite IH. reflexivity.
Qed.

Lemma skip_spaces_idem (s : string) : skip_spaces (skip_spaces s) = skip_spaces s.
Proof.
  unfold skip_spaces.
  rewrite (skip_leading_trailing (skip_leading s) (skip_leading_idem s)).
  apply skip_trailing_idem.
Qed.

(** [float] skips its whitespace itself. *)
Lemma float_skip_spaces (s : string) : float (skip_spaces s) = float s.
Proof. unfold float. rewrite skip_spaces_idem. reflexivity. Qed.

(** When the whitespace around a text is whitespace [float] skips, the
    text and the stripped text convert alike. *)
Lemma float_strip_padding (s : string) :
  skip_spaces s = strip s -> float (strip s) = float s.
Proof. intros H. rewrite <- H. apply float_skip_spaces. Qed.

Lemma lstrip_skip_leading (s : string) : lstrip (skip_leading s) = lstrip s.
Proof.
  induction s as [|c t IH]; simpl; [reflexivity|].
  destruct (is_float_space c) eqn:Hf.
  - rewrite (float_space_is_space c Hf). exact IH.
  - reflexivity.
Qed.

Lemma rstrip_skip_trailing (s : string) : rstrip (skip_trailing s) = rstrip s.
Proof.
  induction s as [|c t IH]; simpl; [reflexivity|].
  destruct (skip_trailing t) as [|c' r] eqn:Hr.
  - simpl in IH. rewrite <- IH.
    destruct (is_float_space c) eqn:Hf.
    + rewrite (float_space_is_space c Hf). reflexivity.
    + reflexivity.
  - change (rstrip (String c (String c' r)))
      with (match rstrip (String c' r) with
            | EmptyString => if is_space c then EmptyString else String c EmptyString
            | String _ _ as r0 => String c r0
            end).
    rewrite IH. reflexivity.
Qed.

Lemma lstrip_skip_trailing (s : string) :
  lstrip (skip_trailing s) = skip_trailing (lstrip s).
Proof.
  induction s as [|c t IH]; [reflexivity|].
  cbn [lstrip skip_trailing].
  destruct (is_space c) eqn:Hc.
  - destruct (skip_trailing t) as [|c' r] eqn:Hr.
    + rewrite <- IH. destruct (is_float_space c); cbn [lstrip]; rewrite ?Hc; reflexivity.
    + rewrite <- IH. cbn [lstrip]. rewrite Hc. reflexivity.
  - cbn [skip_trailing].
    destruct (skip_trailing t) as [|c' r] eqn:Hr.
    + destruct (is_float_space c) eqn:Hf.
      * rewrite (float_space_is_space c Hf) in Hc. discriminate.
      * cbn [lstrip]. rewrite Hc. reflexivity.
    + cbn [lstrip]. rewrite Hc. reflexivity.
Qed.

Lemma strip_skip_spaces (s : string) : strip (skip_spaces s) = strip s.
Proof.
  unfold strip, skip_spaces.
  rewrite lstrip_skip_trailing, rstrip_skip_trailing, lstrip_skip_leading.
  reflexivity.
Qed.

Lemma no_space_lstrip (s : string) : no_space s = true -> lstrip s = s.
Proof.
  destruct s as [|c t]; [reflexivity|]. cbn [no_space lstrip].
  destruct (is_space c); [discriminate|reflexivity].
Qed.

Lemma no_space_rstrip (s : string) : no_space s = true -> rstrip s = s.
Proof.
  induction s as [|c t IH]; [reflexivity|]. cbn [no_space rstrip].
  destruct (is_space c); [discriminate|]. cbn [negb andb]. intros H.
  rewrite (IH H). destruct t; reflexivity.
Qed.

Lemma no_space_strip (s : string) : no_space s = true -> strip s = s.
Proof.
  intros H. unfold strip. rewrite (no_space_lstrip s H). exact (no_space_rstrip s H).
Qed.

(** The texts of numbers hold no whitespace. *)
Lemma digit_no_space (c : ascii) (d : N) :
  digit_of c = Some d -> is_space c = false.
Proof.
  unfold digit_of, is_space. cbv zeta.
  destruct (48 <=? N_of_ascii c)%N eqn:H1; [|discriminate].
  destruct (N_of_ascii c <=? 57)%N eqn:H2; [|discriminate].
  intros _. apply N.leb_le in H1, H2.
  destruct (N_of_ascii c <=? 13)%N eqn:H3; [apply N.leb_le in H3; lia|].
  destruct (N_of_ascii c <=? 32)%N eqn:H4; [apply N.leb_le in H4; lia|].
  rewrite !andb_false_r. reflexivity.
Qed.

Lemma digits_tail_no_space (n : nat) : forall (s : string) (v k : N),
  (String.length s <= n)%nat ->
  no_space (snd (digits_tail v k s)) = true -> no_space s = true.
Proof.
  induction n as [|n IH]; intros s v k Hn.
  - destruct s; [reflexivity|simpl in Hn; lia].
  - destruct s as [|c t]; [reflexivity|].
    cbn [digits_tail]. simpl in Hn.
    destruct (digit_of c) as [d|] eqn:Hd.
    + intros H. cbn [no_space]. rewrite (digit_no_space c d Hd).
      apply (IH t _ _) in H; [exact H|lia].
    + destruct (Ascii.eqb c "_") eqn:Hu; [|intros H; exact H].
      destruct t as [|c' t']; [intros H; exact H|].
      destruct (digit_of c') as [d|] eqn:Hd'; [|intros H; exact H].
      intros H. apply Ascii.eqb_eq in Hu. subst c.
      cbn [no_space]. rewrite (digit_no_space c' d Hd').
      apply (IH t' _ _) in H; [rewrite H; reflexivity|simpl in Hn; lia].
Qed.

Lemma digitpart_no_space (s : string) (v k v' k' : N) (r : string) :
  digitpart v k s = Some (v', k', r) ->
  no_space r = true -> no_space s = true.
Proof.
  unfold digitpart. destruct s as [|c t]; [discriminate|].
  destruct (digit_of c) as [d|] eqn:Hd; [|discriminate].
  intros [= H] Hr. cbn [no_space]. rewrite (digit_no_space c d Hd).
  eapply (digits_tail_no_space (String.length t) t _ _ (le_n _)).
  rewrite H. exact Hr.
Qed.

Lemma number_no_space (s : string) (m kf : N) (r : string) :
  number s = Some (m, kf, r) ->
  no_space r = true -> no_space s = true.
Proof.
  unfold number.
  destruct (digitpart 0 0 s) as [[[v k] r0]|] eqn:Hd.
  - assert (Hpoint : forall t, no_space t = true -> no_space (String "." t) = true)
      by (intros t Ht; cbn [no_space]; rewrite Ht; reflexivity).
    assert (Hplain : Some (v, 0%N, r0) = Some (m, kf, r) ->
                     no_space r = true -> no_space s = true).
    { intros [= <- <- <-] Hr. exact (digitpart_no_space _ _ _ _ _ _ Hd Hr). }
    destruct r0 as [|c r1]; [exact Hplain|].
    destruct (Ascii.eqb c ".") eqn:Hc.
    + apply Ascii.eqb_eq in Hc. subst c.
      destruct (digitpart v 0 r1) as [[[v1 k1] r2]|] eqn:Hd1.
      * intros [= <- <- <-] Hr.
        apply (digitpart_no_space _ _ _ _ _ _ Hd). apply Hpoint.
        exact (digitpart_no_space _ _ _ _ _ _ Hd1 Hr).
      * intros [= <- <- <-] Hr.
        apply (digitpart_no_space _ _ _ _ _ _ Hd). apply Hpoint. exact Hr.
    + assert (Hm : match c with
                   | "."%char =>
                       match digitpart v 0 r1 with
                       | Some res => Some res
                       | None => Some (v, 0%N, r1)
                       end
                   | _ => Some (v, 0%N, String c r1)
                   end = Some (v, 0%N, String c r1)).
      { destruct c as [[] [] [] [] [] [] [] []]; try reflexivity. discriminate. }
      rewrite Hm. exact Hplain.
  - destruct s as [|c r1]; [discriminate|].
    destruct (Ascii.eqb c ".") eqn:Hc.
    + apply Ascii.eqb_eq in Hc. subst c. intros H Hr.
      cbn [no_space]. rewrite (digitpart_no_space _ _ _ _ _ _ H Hr). reflexivity.
    + destruct c as [[] [] [] [] [] [] [] []]; try discriminate.
Qed.

Lemma sign_no_space (s : string) :
  no_space (snd (sign s)) = true -> no_space s = true.
Proof.
  destruct s as [|c t]; [reflexivity|].
  destruct (Ascii.eqb c "-") eqn:Hm; [apply Ascii.eqb_eq in Hm; subst c|].
  { cbn. intros ->. reflexivity. }
  destruct (Ascii.eqb c "+") eqn:Hp; [apply Ascii.eqb_eq in Hp; subst c|].
  { cbn. intros ->. reflexivity. }
  assert (Hs : sign (String c t) = (false, String c t)).
  { destruct c as [[] [] [] [] [] [] [] []]; try reflexivity; discriminate. }
  rewrite Hs. intros H. exact H.
Qed.

Lemma exponent_no_space (s : string) (e : Z) :
  exponent s = Some e -> no_space s = true.
Proof.
  unfold exponent. destruct s as [|c r]; [reflexivity|].
  destruct (Ascii.eqb c "e" || Ascii.eqb c "E") eqn:Hc; [|discriminate].
  destruct (sign r) as [neg r'] eqn:Hs.
  destruct (digitpart 0 0 r') as [[[v k] [|]]|] eqn:Hd; try discriminate.
  intros _. cbn [no_space].
  assert (Hr : no_space r = true).
  { apply sign_no_space. rewrite Hs. cbn [snd].
    exact (digitpart_no_space _ _ _ _ _ _ Hd eq_refl). }
  rewrite Hr.
  apply orb_true_iff in Hc as [Hc | Hc]; apply Ascii.eqb_eq in Hc; subst c; reflexivity.
Qed.

Lemma floatnumber_no_space (neg : bool) (s : string) (f : float64) :
  floatnumber neg s = Some f -> no_space s = true.
Proof.
  unfold floatnumber. destruct (number s) as [[[m kf] r]|] eqn:Hn; [|discriminate].
  destruct (exponent r) as [e|] eqn:He; [|discriminate]. intros _.
  exact (number_no_space _ _ _ _ Hn (exponent_no_space _ _ He)).
Qed.

Lemma lower_space (c : ascii) : is_space (lower c) = is_space c.
Proof. destruct c as [[] [] [] [] [] [] [] []]; reflexivity. Qed.

Lemma no_space_lower_all (s : string) : no_space (lower_all s) = no_space s.
Proof.
  induction s as [|c t IH]; [reflexivity|].
  cbn [lower_all no_space]. rewrite lower_space, IH. reflexivity.
Qed.

Lemma inf_or_nan_no_space (neg : bool) (s : string) (f : float64) :
  inf_or_nan neg s = Some f -> no_space s = true.
Proof.
  unfold inf_or_nan. cbv zeta. rewrite <- no_space_lower_all.
  destruct (String.eqb (lower_all s) "inf") eqn:H1;
    [apply String.eqb_eq in H1; rewrite H1; reflexivity|].
  destruct (String.eqb (lower_all s) "infinity") eqn:H2;
    [apply String.eqb_eq in H2; rewrite H2; reflexivity|].
  destruct (String.eqb (lower_all s) "nan") eqn:H3;
    [apply String.eqb_eq in H3; rewrite H3; reflexivity|].
  discriminate.
Qed.

(** The text [float] accepts holds no whitespace once the whitespace it
    skips is dropped. *)
Lemma float_no_space (s : string) (f : float64) :
  float s = Some f -> no_space (skip_spaces s) = true.
Proof.
  unfold float. destruct (sign (skip_spaces s)) as [neg r] eqn:Hs.
  intros H. apply sign_no_space. rewrite Hs. cbn [snd].
  destruct (floatnumber neg r) as [g|] eqn:Hf.
  - exact (floatnumber_no_space _ _ _ Hf).
  - exact (inf_or_nan_no_space _ _ _ H).
Qed.

(** Around a text [float] accepts, [str.strip] drops what [float] skips. *)
Lemma float_padding (s : string) (f : float64) :
  float s = Some f -> skip_spaces s = strip s.
Proof.
  intros H. rewrite <- strip_skip_spaces.
  symmetry. apply no_space_strip. exact (float_no_space s f H).
Qed.

(** A text [float] accepts is still accepted, with the same value, once
    stripped. *)
Lemma float_strip_some (s : string) (f : float64) :
  float s = Some f -> float (strip s) = Some f.
Proof.
  intros H. rewrite (float_strip_padding s (float_padding s f H)). exact H.
Qed.

Lemma lstrip_blank (s : string) : strip s = EmptyString -> lstrip s = EmptyString.
Proof.
  unfold strip. intros H. pose proof (lstrip_lstrip s) as Hl.
  destruct (lstrip s) as [|c t]; [reflexivity|].
  cbn [lstrip] in Hl. cbn [rstrip] in H.
  destruct (is_space c) eqn:Hc.
  - exfalso.
    assert (Hlen : forall u, (String.length (lstrip u) <= String.length u)%nat).
    { induction u as [|d u IHu]; simpl; [lia|].
      destruct (is_space d); simpl; lia. }
    specialize (Hlen t). rewrite Hl in Hlen. simpl in Hlen. lia.
  - destruct (rstrip t); discriminate.
Qed.

(** A blank text is no number. *)
Lemma float_blank (s : string) : strip s = EmptyString -> float s = None.
Proof.
  intros H. apply lstrip_blank in H.
  assert (Ht : lstrip (skip_spaces s) = EmptyString).
  { unfold skip_spaces. rewrite lstrip_skip_trailing, lstrip_skip_leading, H.
    reflexivity. }
  unfold float. destruct (skip_spaces s) as [|c t]; [reflexivity|].
  cbn [lstrip] in Ht. destruct (is_space c) eqn:Hc; [|discriminate].
  clear Ht H.
  destruct c as [[] [] [] [] [] [] [] []]; try discriminate Hc; reflexivity.
Qed.

(** ** Facts on computations *)

Lemma bind_ret_l {A B} (a : A) (k : A -> Eff B) : bind (ret a) k = k a.
Proof. unfold bind, ret. destruct (k a). reflexivity. Qed.

(** ** Facts on validation *)

Lemma check_entry_cases key w opts :
  check_entry key w opts = ret tt \/
  exists msg, check_entry key w opts = raise (ValueError msg).
Proof.
  unfold check_entry. destruct opts as [o|].
  - destruct (Dict.contains o (widget_get w)); simpl; eauto.
  - destruct (PyStr.truthy (strip (widget_get w))); simpl; eauto.
    destruct (float (strip (widget_get w))); eauto.
Qed.

Lemma field_valid_check key w opts :
  field_valid (key, (w, opts)) = true <-> check_entry key w opts = ret tt.
Proof.
  unfold field_valid.
  destruct (check_entry_cases key w opts) as [H | [msg H]]; rewrite H;
    split; intros H'; try reflexivity; discriminate.
Qed.

Lemma field_invalid_check key w opts :
  field_valid (key, (w, opts)) = false <->
  exists msg, check_entry key w opts = raise (ValueError msg).
Proof.
  unfold field_valid.
  destruct (check_entry_cases key w opts) as [H | [msg H]]; rewrite H; split.
  - discriminate.
  - intros [m Hm]. discriminate.
  - eauto.
  - reflexivity.
Qed.

Lemma for_each_valid (es : list (string * (widget * option options))) :
  forallb field_valid es = true ->
  for_each es (fun '(key, (w, opts)) => check_entry key w opts) = ret tt.
Proof.
  induction es as [|[key [w opts]] r IH]; simpl; [reflexivity|].
  intros H. apply andb_true_iff in H as [Hv Hr].
  apply field_valid_check in Hv. rewrite Hv, bind_ret_l. auto.
Qed.

Lemma for_each_first_invalid pre key w opts post msg :
  forallb field_valid pre = true ->
  check_entry key w opts = raise (ValueError msg) ->
  for_each (pre ++ (key, (w, opts)) :: post)
    (fun '(key, (w, opts)) => check_entry key w opts) = raise (ValueError msg).
Proof.
  intros Hpre Hbad.
  induction pre as [|[k [w' o]] r IH]; simpl.
  - rewrite Hbad. reflexivity.
  - simpl in Hpre. apply andb_true_iff in Hpre as [Hv Hr].
    apply field_valid_check in Hv. rewrite Hv, bind_ret_l. auto.
Qed.

(** A list with an invalid entry splits at the first one. *)
Lemma split_first_invalid (es : list (string * (widget * option options))) :
  forallb field_valid es = false ->
  exists pre key w opts post msg,
    es = (pre ++ (key, (w, opts)) :: post)%list /\
    forallb field_valid pre = true /\
    check_entry key w opts = raise (ValueError msg).
Proof.
  induction es as [|[key [w opts]] r IH]; cbn [forallb]; [discriminate|].
  destruct (field_valid (key, (w, opts))) eqn:Hv; cbn [andb].
  - intros H. destruct (IH H) as (pre & k & w' & o & post & msg & -> & Hp & Hc).
    exists ((key, (w, opts)) :: pre), k, w', o, post, msg.
    repeat split; auto. cbn [forallb]. rewrite Hv. exact Hp.
  - intros _. apply field_invalid_check in Hv as [msg Hm].
    exists [], key, w, opts, r, msg. repeat split; auto.
Qed.

Lemma validate_inputs_valid (self : App) :
  forallb field_valid (entries self) = true ->
  validate_inputs self = ret true.
Proof.
  intros H. unfold validate_inputs. rewrite (for_each_valid _ H). reflexivity.
Qed.

Lemma validate_inputs_invalid (self : App) pre key w opts post msg :
  entries self = (pre ++ (key, (w, opts)) :: post)%list ->
  forallb field_valid pre = true ->
  check_entry key w opts = raise (ValueError msg) ->
  validate_inputs self = ([ShowError "Validation Error" msg], Return false).
Proof.
  intros He Hp Hc. unfold validate_inputs.
  rewrite He, (for_each_first_invalid _ _ _ _ _ _ Hp Hc). reflexivity.
Qed.

Lemma validate_inputs_true (self : App) :
  snd (validate_inputs self) = Return true ->
  forallb field_valid (entries self) = true.
Proof.
  intros H. destruct (forallb field_valid (entries self)) eqn:Hv; [reflexivity|].
  destruct (split_first_invalid _ Hv) as (pre & k & w & o & post & msg & He & Hp & Hc).
  rewrite (validate_inputs_invalid self _ _ _ _ _ _ He Hp Hc) in H.
  discriminate.
Qed.

(** ** Facts on the encoding loop *)

Lemma dict_contains_get {V} (d : Dict.t V) k :
  Dict.contains d k = true <-> exists v, Dict.get d k = Some v.
Proof.
  unfold Dict.contains. destruct (Dict.get d k) as [v|]; split; eauto.
  - discriminate.
  - intros [v H]. discriminate.
Qed.

Lemma dict_get_truthy {V} (d : Dict.t V) k v :
  Dict.get d k = Some v -> Dict.truthy d = true.
Proof. destruct d; [discriminate | reflexivity]. Qed.

Lemma numeric_check key w :
  check_entry key w None =
  if PyStr.truthy (strip w)
  then match float (strip w) with
       | Some _ => ret tt
       | None => raise (ValueError (capitalize key ++ " must be a numeric value"))
       end
  else raise (ValueError (capitalize key ++ " cannot be empty")).
Proof.
  unfold check_entry, widget_get.
  destruct (PyStr.truthy (strip w)); reflexivity.
Qed.

Lemma truthy_strip_float w f :
  float (strip w) = Some f -> PyStr.truthy (strip w) = true.
Proof. destruct (strip w); [discriminate|reflexivity]. Qed.

(** An entry field passes its check exactly when [float] accepts its
    stripped text. *)
Lemma numeric_valid key w :
  field_valid (key, (w, None)) = true <-> exists f, float (strip w) = Some f.
Proof.
  unfold field_valid. rewrite numeric_check.
  destruct (float (strip w)) as [f|] eqn:Hf.
  - rewrite (truthy_strip_float _ _ Hf). split; eauto.
  - destruct (PyStr.truthy (strip w)); split; try discriminate;
      intros [f H]; discriminate.
Qed.

Lemma float_call_cases (s : string) :
  (exists f, float s = Some f /\ float_call s = ret (PyFloat f)) \/
  (float s = None /\
   float_call s = raise (ValueError ("could not convert string to float: " ++ repr s))).
Proof.
  unfold float_call. destruct (float s) as [f|]; [left|right]; eauto.
Qed.

(** The step of the encoding loop for a combo box that passed validation. *)
Lemma valid_table_encode key w o :
  field_valid (key, (w, Some o)) = true ->
  exists z, Dict.get o w = Some z /\ encode_entry key w (Some o) = ret (PyInt z).
Proof.
  intros H. apply field_valid_check in H. unfold check_entry in H.
  destruct (Dict.contains o (widget_get w)) eqn:Hc; [|discriminate].
  apply dict_contains_get in Hc as [z Hz]. exists z. split; [exact Hz|].
  unfold encode_entry, getitem. rewrite (dict_get_truthy _ _ _ Hz).
  unfold widget_get in *. rewrite Hz. reflexivity.
Qed.

(** The step of the encoding loop for an entry that passed validation: it
    returns the entry's value, or it is an entry field whose text, as
    typed, [float] rejects. *)
Lemma valid_encode_entry key w opts :
  field_valid (key, (w, opts)) = true ->
  (exists v, encode_entry key w opts = ret v /\ encodes (key, (w, opts)) v) \/
  (opts = None /\ float w = None /\
   encode_entry key w opts
   = raise (ValueError ("could not convert string to float: " ++ repr w))).
Proof.
  intros H. destruct opts as [o|].
  - left. destruct (valid_table_encode key w o H) as (z & Hz & He).
    exists (PyInt z). split; [exact He|]. simpl. eauto.
  - unfold encode_entry, widget_get.
    destruct (float_call_cases w) as [(f & Hf & Hc) | (Hf & Hc)].
    + left. exists (PyFloat f). split; [exact Hc|]. simpl. eauto.
    + right. auto.
Qed.

Lemma encoded_by_encodes (e : string * (widget * option options)) (v : pynum) :
  field_valid e = true -> encoded_by e v -> encodes e v.
Proof.
  destruct e as [key [w opts]]. intros Hv He. unfold encoded_by in He.
  destruct (valid_encode_entry key w opts Hv) as [(v' & He' & Hen) | (_ & _ & He')];
    rewrite He' in He; [|discriminate].
  injection He as <-. exact Hen.
Qed.

Lemma forall2_encodes (es : list (string * (widget * option options))) :
  forall vs, forallb field_valid es = true ->
  Forall2 encoded_by es vs -> Forall2 encodes es vs.
Proof.
  induction es as [|e r IH]; intros vs Hv H; inversion H; subst; constructor.
  - cbn [forallb] in Hv. apply andb_true_iff in Hv as [Hv _].
    apply encoded_by_encodes; assumption.
  - cbn [forallb] in Hv. apply andb_true_iff in Hv as [_ Hv]. apply IH; assumption.
Qed.

Lemma encode_entry_cases key w opts :
  (exists v, encode_entry key w opts = ret v) \/
  (exists e, encode_entry key w opts = raise e).
Proof.
  assert (Hf : (exists v, float_call (widget_get w) = ret v) \/
               (exists e, float_call (widget_get w) = raise e)).
  { destruct (float_call_cases (widget_get w)) as [(f & _ & H) | (_ & H)]; eauto. }
  unfold encode_entry. destruct opts as [o|]; [|exact Hf].
  destruct (Dict.truthy o); [|exact Hf].
  unfold getitem.
  destruct (Dict.get o (widget_get w)); [left|right]; eexists; reflexivity.
Qed.

(** The encoding loop: it returns one value per entry, or it stops at the
    first entry whose step raises, with that exception; it shows nothing
    and calls nothing. *)
Lemma for_append_run (es : list (string * (widget * option options))) :
  (exists vs,
     Forall2 encoded_by es vs /\
     forall data,
       for_append es (fun '(key, (w, opts)) => encode_entry key w opts) data
       = ret (data ++ vs)%list) \/
  (exists pre key w opts post e,
     es = (pre ++ (key, (w, opts)) :: post)%list /\
     encode_entry key w opts = raise e /\
     forall data,
       for_append es (fun '(key, (w, opts)) => encode_entry key w opts) data
       = raise e).
Proof.
  induction es as [|[key [w opts]] r IH].
  - left. exists []. split; [constructor|]. intros data. simpl.
    rewrite app_nil_r. reflexivity.
  - destruct (encode_entry_cases key w opts) as [[v Hv] | [e He]].
    + destruct IH as [(vs & Hvs & Hrun) | (pre & k & w' & o & post & e & Hs & He & Hrun)].
      * left. exists (v :: vs). split; [constructor; [exact Hv|exact Hvs]|].
        intros data. cbn [for_append]. rewrite Hv, bind_ret_l, Hrun, <- app_assoc.
        reflexivity.
      * right. exists ((key, (w, opts)) :: pre), k, w', o, post, e.
        split; [rewrite Hs; reflexivity|]. split; [exact He|].
        intros data. cbn [for_append]. rewrite Hv, bind_ret_l. apply Hrun.
    + right. exists [], key, w, opts, r, e. split; [reflexivity|].
      split; [exact He|]. intros data. cbn [for_append]. rewrite He. reflexivity.
Qed.

Lemma forallb_middle {A} (f : A -> bool) pre x post :
  forallb f (pre ++ x :: post) = true -> f x = true.
Proof.
  rewrite forallb_app. cbn [forallb]. intros H.
  apply andb_true_iff in H as [_ H]. apply andb_true_iff in H as [H _]. exact H.
Qed.

(** How the encoding loop ends on a form that passed validation. *)
Lemma gather_data_run (self : App) :
  forallb field_valid (entries self) = true ->
  (exists data,
     Forall2 encodes (entries self) data /\ gather_data self = ret data) \/
  (exists pre key w post,
     entries self = (pre ++ (key, (w, None)) :: post)%list /\
     float w = None /\
     gather_data self
     = raise (ValueError ("could not convert string to float: " ++ repr w))).
Proof.
  intros Hv. unfold gather_data.
  destruct (for_append_run (entries self))
    as [(vs & Hvs & Hrun) | (pre & k & w & o & post & e & Hs & He & Hrun)].
  - left. exists vs. split; [exact (forall2_encodes _ _ Hv Hvs)|].
    rewrite Hrun. reflexivity.
  - right. rewrite Hs in Hv. apply forallb_middle in Hv.
    destruct (valid_encode_entry k w o Hv) as [(v & Hr & _) | (-> & Hf & Hr)];
      rewrite Hr in He; [discriminate|].
    injection He as <-. exists pre, k, w, post.
    split; [exact Hs|]. split; [exact Hf|]. apply Hrun.
Qed.

(** The encoding loop returns or raises. *)
Lemma gather_data_cases (self : App) :
  (exists data, gather_data self = ret data) \/
  (exists e, gather_data self = raise e).
Proof.
  unfold gather_data.
  destruct (for_append_run (entries self))
    as [(vs & _ & Hrun) | (pre & k & w & o & post & e & _ & _ & Hrun)].
  - left. exists vs. rewrite Hrun. reflexivity.
  - right. exists e. apply Hrun.
Qed.


Lemma for_append_encodable (es : list (string * (widget * option options))) :
  forallb field_encodable es = true ->
  exists vs,
    forall data,
      for_append es (fun '(key, (w, opts)) => encode_entry key w opts) data
      = ret (data ++ vs)%list.
Proof.
  intros H.
  destruct (for_append_run es)
    as [(vs & _ & Hrun) | (pre & k & w & o & post & e & Hs & He & _)].
  - exists vs. exact Hrun.
  - rewrite Hs in H. apply forallb_middle in H.
    unfold field_encodable in H. rewrite He in H. discriminate.
Qed.

Lemma gather_data_encodable (self : App) :
  forallb field_valid (entries self) = true ->
  forallb field_encodable (entries self) = true ->
  exists data,
    Forall2 encodes (entries self) data /\ gather_data self = ret data.
Proof.
  intros Hv He.
  destruct (gather_data_run self Hv) as [H | (pre & k & w & post & Hs & Hf & Hg)];
    [exact H|].
  destruct (for_append_encodable _ He) as (vs & Hrun).
  unfold gather_data in Hg. rewrite Hrun in Hg. discriminate.
Qed.

(** An entry that passed validation and whose padding [float] skips is
    encoded. *)
Lemma padding_encodable (e : string * (widget * option options)) :
  field_valid e = true -> padding_skipped e = true -> field_encodable e = true.
Proof.
  destruct e as [key [w [o|]]]; intros Hv Hp; unfold field_encodable.
  - destruct (valid_table_encode key w o Hv) as (z & _ & He). rewrite He. reflexivity.
  - apply numeric_valid in Hv as [f Hf]. cbn [padding_skipped] in Hp.
    apply String.eqb_eq in Hp. rewrite (float_strip_padding w Hp) in Hf.
    unfold encode_entry, float_call, widget_get. rewrite Hf. reflexivity.
Qed.

Lemma forallb_padding_encodable (es : list (string * (widget * option options))) :
  forallb field_valid es = true -> forallb padding_skipped es = true ->
  forallb field_encodable es = true.
Proof.
  induction es as [|e r IH]; [reflexivity|]. cbn [forallb].
  intros Hv Hp. apply andb_true_iff in Hv as [Hv Hr].
  apply andb_true_iff in Hp as [Hp Hq].
  rewrite (padding_encodable e Hv Hp). exact (IH Hr Hq).
Qed.

(** [encode] on a valid form is the encoding loop. *)
Lemma encode_valid (self : App) :
  forallb field_valid (entries self) = true ->
  encode self = (data <- gather_data self ;; ret (Some data)).
Proof.
  intros H. unfold encode. rewrite (validate_inputs_valid self H), bind_ret_l.
  reflexivity.
Qed.

Lemma encode_invalid (self : App) pre key w opts post msg :
  entries self = (pre ++ (key, (w, opts)) :: post)%list ->
  forallb field_valid pre = true ->
  check_entry key w opts = raise (ValueError msg) ->
  encode self = ([ShowError "Validation Error" msg], Return None).
Proof.
  intros He Hp Hc. unfold encode.
  rewrite (validate_inputs_invalid self _ _ _ _ _ _ He Hp Hc). reflexivity.
Qed.

Lemma predict_invalid (self : App) pre key w opts post msg :
  entries self = (pre ++ (key, (w, opts)) :: post)%list ->
  forallb field_valid pre = true ->
  check_entry key w opts = raise (ValueError msg) ->
  predict self = ([ShowError "Validation Error" msg], Return self).
Proof.
  intros He Hp Hc. unfold predict.
  rewrite (validate_inputs_invalid self _ _ _ _ _ _ He Hp Hc). reflexivity.
Qed.

Lemma forallb_middle_false {A} (f : A -> bool) pre x post :
  f x = false -> forallb f (pre ++ x :: post) = false.
Proof.
  intros H. rewrite forallb_app. cbn [forallb]. rewrite H.
  apply andb_false_r.
Qed.

(** An invalid entry anywhere makes [encode] end with one error box. *)
Lemma encode_some_invalid (self : App) pre e post :
  entries self = (pre ++ e :: post)%list ->
  field_valid e = false ->
  exists msg, encode self = ([ShowError "Validation Error" msg], Return None).
Proof.
  intros He Hv.
  assert (Hall : forallb field_valid (entries self) = false).
  { rewrite He. apply forallb_middle_false. exact Hv. }
  destruct (split_first_invalid _ Hall) as (p & k & w & o & q & msg & Hs & Hp & Hc).
  exists msg. exact (encode_invalid self _ _ _ _ _ _ Hs Hp Hc).
Qed.


(** ** Facts on [predict] *)

(** The [try] block of [predict], once the vector is built. *)
Lemma predict_body_run (self : App) data :
  gather_data self = ret data ->
  predict_body self =
  let arr := np_array [data] in
  let tag := model_var self in
  match scaler self with
  | None =>
      raise (OtherError "AttributeError"
               "'NoneType' object has no attribute 'transform'")
  | Some sc =>
      match Artifact.transform sc arr with
      | inl e => ([Transform arr], Raise e)
      | inr X =>
          match Dict.get (models self) tag with
          | None => ([Transform arr], Raise (KeyError tag))
          | Some m =>
              match Artifact.predict m X with
              | inl e => ([Transform arr; Predict tag X], Raise e)
              | inr [] =>
                  ([Transform arr; Predict tag X],
                   Raise (IndexError "index 0 is out of bounds for axis 0 with size 0"))
              | inr (p :: _) =>
                  ([Transform arr; Predict tag X],
                   Return (if eq_one p
                           then display self "darkred" (high_risk_text tag)
                           else display self "darkgreen" (low_risk_text tag)))
              end
          end
      end
  end.
Proof.
  intros Hg. unfold predict_body. rewrite Hg, bind_ret_l.
  unfold call_transform, getitem, call_predict, first.
  destruct (scaler self) as [sc|]; [|reflexivity].
  destruct (Artifact.transform sc (np_array [data])) as [e|X]; [reflexivity|].
  cbn. destruct (Dict.get (models self) (model_var self)) as [m|]; [|reflexivity].
  cbn. destruct (Artifact.predict m X) as [e|[|p y]]; [reflexivity|reflexivity|].
  cbn. destruct (eq_one p); reflexivity.
Qed.

(** [predict] when every field is valid. *)
Lemma predict_valid (self : App) :
  forallb field_valid (entries self) = true ->
  predict self =
  try_except (predict_body self)
    (fun e => Some (show_error "Analysis Failed" (exn_str e) false ;; ret self)).
Proof.
  intros H. unfold predict. rewrite (validate_inputs_valid self H), bind_ret_l.
  reflexivity.
Qed.

(** The [try] block of [predict] when the encoding loop raises. *)
Lemma predict_body_raise (self : App) e :
  gather_data self = raise e -> predict_body self = raise e.
Proof. intros Hg. unfold predict_body. rewrite Hg. reflexivity. Qed.

(** [predict] on a valid form whose encoding raises: one "Analysis
    Failed" box, no call into an artifact, the state left as it was. *)
Lemma predict_gather_raise (self : App) e :
  forallb field_valid (entries self) = true ->
  gather_data self = raise e ->
  predict self = ([ShowError "Analysis Failed" (exn_str e)], Return self).
Proof.
  intros Hv Hg. rewrite (predict_valid self Hv), (predict_body_raise self e Hg).
  reflexivity.
Qed.

Lemma predict_body_display (self : App) fg text :
  predict_body (display self fg text) = predict_body self.
Proof. reflexivity. Qed.

Lemma encode_entries (self self' : App) :
  entries self = entries self' -> encode self = encode self'.
Proof.
  intros H. unfold encode, validate_inputs, gather_data. rewrite H. reflexivity.
Qed.

(** ** Facts on start-up *)

Lemma load_loop_run fs paths : forall loaded failed,
  load_loop fs paths loaded failed
  = (load_trace fs paths, Return (load_state fs paths loaded failed)).
Proof.
  induction paths as [|[key path] rest IH]; intros loaded failed; [reflexivity|].
  cbn [load_loop load_trace load_state]. unfold joblib_load, loads.
  destruct (fs path) as [e|o]; cbn; rewrite IH; reflexivity.
Qed.

Lemma load_models_run fs :
  load_models fs =
  let loaded := fst (load_state fs model_paths [] []) in
  if Dict.truthy loaded
  then (load_trace fs model_paths, Return loaded)
  else ((load_trace fs model_paths
         ++ [ShowError "Startup Error" "No models could be loaded"])%list,
        SystemExit).
Proof.
  unfold load_models. rewrite load_loop_run.
  destruct (load_state fs model_paths [] []) as [loaded failed]. cbn.
  destruct (Dict.truthy loaded); cbn; rewrite ?app_nil_r; reflexivity.
Qed.

Lemma load_scaler_run fs :
  load_scaler fs =
  match fs "scaler.pkl" with
  | inr o => ([JoblibLoad "scaler.pkl"], Return (Some o))
  | inl _ =>
      ([JoblibLoad "scaler.pkl";
        ShowError "Critical Error" "Failed to load feature scaler"], SystemExit)
  end.
Proof.
  unfold load_scaler, joblib_load. destruct (fs "scaler.pkl"); reflexivity.
Qed.

(** How [__init__] ends: it returns only when a model and the scaler
    loaded. *)
Lemma init_outcome fs :
  snd (__init__ fs) =
  let loaded := fst (load_state fs model_paths [] []) in
  if Dict.truthy loaded then
    match fs "scaler.pkl" with
    | inr o =>
        Return {| models := loaded;
                  scaler := Some o;
                  entries := set_default_values (create_widgets get_field_definitions);
                  model_var := hd EmptyString (Dict.keys loaded);
                  result_var := initial_result;
                  result_foreground := EmptyString;
                  status_bar := "Ready" |}
    | inl _ => SystemExit
    end
  else SystemExit.
Proof.
  unfold __init__. rewrite load_models_run, load_scaler_run. cbn zeta.
  destruct (Dict.truthy (fst (load_state fs model_paths [] []))); [|reflexivity].
  destruct (fs "scaler.pkl"); reflexivity.
Qed.

Lemma init_entries fs self :
  snd (__init__ fs) = Return self -> entries self = entries sample_app.
Proof.
  intros H. rewrite init_outcome in H. cbn zeta in H.
  destruct (Dict.truthy _); [|discriminate].
  destruct (fs "scaler.pkl"); [discriminate|].
  injection H as <-. reflexivity.
Qed.

Ltac split_paths fs :=
  destruct (fs "Models/bfo_optimize_svm_model.pkl") eqn:?;
  destruct (fs "Models/aco_optimize_svm_model.pkl") eqn:?;
  destruct (fs "Models/de_optimize_svm_model.pkl") eqn:?;
  destruct (fs "Models/ga_optimize_svm_model.pkl") eqn:?;
  destruct (fs "Models/abc_optimize_svm_model.pkl") eqn:?.

Lemma load_state_models fs :
  load_state fs model_paths [] [] = (loaded_models_of fs, failed_tags fs).
Proof.
  unfold loaded_models_of, failed_tags, loads. cbn.
  split_paths fs; reflexivity.
Qed.

(** ** The claims *)

(** C6. When some field of the form is invalid, the fields before the
    first invalid one (in the order of the entries, which is the order of
    the field table) pass their check, and validation, the specification's
    [encode] and [predict] all end after exactly one error box carrying the
    message of that field: nothing is encoded and a later invalid field
    adds nothing. *)
Theorem first_invalid_field_reported (self : App) :
  forallb field_valid (entries self) = false ->
  exists pre key w opts post msg,
    entries self = (pre ++ (key, (w, opts)) :: post)%list /\
    forallb field_valid pre = true /\
    check_entry key w opts = raise (ValueError msg) /\
    validate_inputs self = ([ShowError "Validation Error" msg], Return false) /\
    encode self = ([ShowError "Validation Error" msg], Return None) /\
    predict self = ([ShowError "Validation Error" msg], Return self).
Proof.
  intros H.
  destruct (split_first_invalid _ H) as (pre & k & w & o & post & msg & Hs & Hp & Hc).
  exists pre, k, w, o, post, msg. repeat split; auto.
  - exact (validate_inputs_invalid self _ _ _ _ _ _ Hs Hp Hc).
  - exact (encode_invalid self _ _ _ _ _ _ Hs Hp Hc).
  - exact (predict_invalid self _ _ _ _ _ _ Hs Hp Hc).
Qed.

(** C10. The encoding loop of [predict] is not total after validation.
    With the text of the age field made of the separator FS (code 28)
    followed by 50, [validate_inputs] strips the text, finds 50 and
    returns [True]; the encoding loop converts the text as typed, which
    [float] rejects, and raises [ValueError]; [predict] catches it and
    shows "Analysis Failed" with the message of [float], without a call
    into the scaler or a model. *)
Theorem validated_text_not_encoded :
  let self := fill_form sample_app separator_raw in
  Dict.get (entries self) "age" = Some (String "028" "50", None) /\
  strip (String "028" "50") = "50" /\
  float "50" = Some (of_Z 50) /\
  float (String "028" "50") = None /\
  validate_inputs self = ret true /\
  gather_data self
  = raise (ValueError "could not convert string to float: '\x1c50'") /\
  encode self
  = raise (ValueError "could not convert string to float: '\x1c50'") /\
  predict self
  = ([ShowError "Analysis Failed" "could not convert string to float: '\x1c50'"],
     Return self).
Proof.
  cbv zeta. repeat (split; [vm_compute; reflexivity|]). vm_compute. reflexivity.
Qed.

(** C3, as amended. A numeric field whose text, once stripped as
    [validate_inputs] strips it, is empty or rejected by [float] makes
    [encode] fail with one validation error, whatever the other fields
    hold; when every field before it is valid the error is this field's:
    its capitalized key with "cannot be empty" for a blank text and "must
    be a numeric value" otherwise.  The key and the text are taken among
    the texts of ASCII characters, where [str.strip], [str.capitalize] and
    [float] are as modelled here.  No range is checked: every text [float]
    accepts, as typed or once stripped, passes the check. *)
Theorem numeric_field_rejected (self : App) pre key w post :
  entries self = (pre ++ (key, (w, None)) :: post)%list ->
  ascii_text key = true -> ascii_text w = true ->
  float (strip w) = None ->
  (exists msg, encode self = ([ShowError "Validation Error" msg], Return None)) /\
  (forallb field_valid pre = true ->
   let msg :=
     capitalize key ++
     (if PyStr.truthy (strip w) then " must be a numeric value"
      else " cannot be empty") in
   validate_inputs self = ([ShowError "Validation Error" msg], Return false) /\
   encode self = ([ShowError "Validation Error" msg], Return None)) /\
  (forall key' w' f, float w' = Some f -> check_entry key' w' None = ret tt) /\
  (forall key' w' f, float (strip w') = Some f -> check_entry key' w' None = ret tt).
Proof.
  intros He _ _ Hf.
  assert (Hc : check_entry key w None =
               raise (ValueError
                        (capitalize key ++
                         (if PyStr.truthy (strip w) then " must be a numeric value"
                          else " cannot be empty")))).
  { rewrite numeric_check, Hf. destruct (PyStr.truthy (strip w)); reflexivity. }
  assert (Hok : forall key' w' f,
             float (strip w') = Some f -> check_entry key' w' None = ret tt).
  { intros key' w' f Hf'. rewrite numeric_check, Hf', (truthy_strip_float _ _ Hf').
    reflexivity. }
  split; [|split; [|split]].
  - apply (encode_some_invalid self pre (key, (w, None)) post He).
    apply field_invalid_check. eauto.
  - intros Hp. split.
    + exact (validate_inputs_invalid self _ _ _ _ _ _ He Hp Hc).
    + exact (encode_invalid self _ _ _ _ _ _ He Hp Hc).
  - intros key' w' f Hf'. exact (Hok key' w' f (float_strip_some w' f Hf')).
  - exact Hok.
Qed.


(** C9. When [joblib.load] raises on the scaler file (the file is missing
    or cannot be unpickled), [load_scaler] shows the critical error and
    ends with [SystemExit], and so does [__init__]: no application object
    is built and no prediction can be served.  Conversely, every
    application object [__init__] returns holds the scaler loaded from the
    file. *)
Theorem scaler_failure_is_fatal (fs : FileSystem) :
  (forall e, fs "scaler.pkl" = inl e ->
     load_scaler fs
     = ([JoblibLoad "scaler.pkl";
         ShowError "Critical Error" "Failed to load feature scaler"], SystemExit) /\
     snd (__init__ fs) = SystemExit) /\
  (forall self, snd (__init__ fs) = Return self ->
     exists sc, fs "scaler.pkl" = inr sc /\ scaler self = Some sc).
Proof.
  split.
  - intros e He. split.
    + rewrite load_scaler_run, He. reflexivity.
    + rewrite init_outcome, He. cbn zeta.
      destruct (Dict.truthy _); reflexivity.
  - intros self H. rewrite init_outcome in H. cbn zeta in H.
    destruct (Dict.truthy _); [|discriminate].
    destruct (fs "scaler.pkl") as [e|sc]; [discriminate|].
    injection H as <-. exists sc. split; reflexivity.
Qed.

(** C5. After a start-up that succeeded, the form filled with the raw
    input of the scenario encodes to [50, 1, 1, 120, 200, 0, 0, 150, 0,
    1.0, 1]: eleven values, one per row of the field table and in the
    order of its keys; as the array handed to the scaler, each of them is
    the float of that integer. *)
Theorem scenario_encoding (fs : FileSystem) (self : App) :
  snd (__init__ fs) = Return self ->
  encode (fill_form self scenario_raw) = ret (Some scenario_vector) /\
  List.length scenario_vector = 11%nat /\
  List.length scenario_vector = List.length get_field_definitions /\
  map fst (entries (fill_form self scenario_raw))
  = map (fun '(label_text, key, opts, tooltip) => key) get_field_definitions /\
  np_array [scenario_vector]
  = [map (fun z => PyFloat (of_Z z)) [50; 1; 1; 120; 200; 0; 0; 150; 0; 1; 1]%Z].
Proof.
  intros H. apply init_entries in H.
  assert (He : entries (fill_form self scenario_raw)
               = entries (fill_form sample_app scenario_raw)).
  { unfold fill_form. cbn [entries]. rewrite H. reflexivity. }
  split; [|split; [|split; [|split]]].
  - rewrite (encode_entries _ _ He). vm_compute. reflexivity.
  - reflexivity.
  - reflexivity.
  - rewrite He. vm_compute. reflexivity.
  - vm_compute. reflexivity.
Qed.

(** C8. [predict] always returns; run again on the state it leaves (same
    texts, same model selection, same artifacts, an artifact's call being a
    function of its argument), it produces the same events and the same
    state, so the same label, and [encode] gives the same result. *)
Theorem predict_idempotent (self : App) :
  exists evs self',
    predict self = (evs, Return self') /\
    predict self' = (evs, Return self') /\
    encode self' = encode self.
Proof.
  destruct (forallb field_valid (entries self)) eqn:Hv.
  - destruct (gather_data_cases self) as [[data Hg] | [e Hg]];
      [|exists [ShowError "Analysis Failed" (exn_str e)], self;
        rewrite (predict_gather_raise self e Hv Hg); auto].
    pose proof (predict_body_run self data Hg) as Hrun. cbn zeta in Hrun.
    rewrite (predict_valid self Hv).
    destruct (scaler self) as [sc|];
      [destruct (Artifact.transform sc (np_array [data])) as [e|X];
       [|destruct (Dict.get (models self) (model_var self)) as [m|];
         [destruct (Artifact.predict m X) as [e|[|p y]]|]]|].
    all: rewrite Hrun; cbn.
    all: try (eexists _, self; repeat split;
              rewrite (predict_valid self Hv), Hrun; reflexivity).
    assert (Hv' : forall fg t, forallb field_valid (entries (display self fg t)) = true)
      by (intros; exact Hv).
    destruct (eq_one p) eqn:Hp.
    + eexists _, _. split; [reflexivity|]. split; [|reflexivity].
      rewrite (predict_valid _ (Hv' _ _)), predict_body_display, Hrun. reflexivity.
    + eexists _, _. split; [reflexivity|]. split; [|reflexivity].
      rewrite (predict_valid _ (Hv' _ _)), predict_body_display, Hrun. reflexivity.
  - destruct (split_first_invalid _ Hv) as (pre & k & w & o & post & msg & Hs & Hp & Hc).
    pose proof (predict_invalid self _ _ _ _ _ _ Hs Hp Hc) as Hr.
    exists [ShowError "Validation Error" msg], self. auto.
Qed.

(** C7. [load_models] tries the five paths in order, whatever fails.
    Each tag whose file fails to load gives one warning, in order, and is
    absent from the dictionary; each tag whose file loads is mapped to the
    loaded object (so the loaded and the failed tags are five together:
    two failures leave three models and two warnings).  The call ends with
    [SystemExit] exactly when no model loaded, and returns the dictionary
    otherwise. *)
Theorem load_models_partial (fs : FileSystem) :
  filter is_load (fst (load_models fs)) = map JoblibLoad (map snd model_paths) /\
  filter is_warning (fst (load_models fs)) = map model_warning (failed_tags fs) /\
  (List.length (loaded_models_of fs) + List.length (failed_tags fs) = 5)%nat /\
  (forall tag path, In (tag, path) model_paths ->
     Dict.get (loaded_models_of fs) tag
     = match fs path with inr o => Some o | inl _ => None end) /\
  (forall tag, Dict.get model_paths tag = None ->
     Dict.get (loaded_models_of fs) tag = None) /\
  (loaded_models_of fs <> [] -> snd (load_models fs) = Return (loaded_models_of fs)) /\
  (snd (load_models fs) = SystemExit <-> loaded_models_of fs = []).
Proof.
  rewrite load_models_run, load_state_models. cbn [fst].
  split; [|split; [|split; [|split; [|split; [|split; [|split]]]]]].
  - unfold loaded_models_of. cbn. unfold loads. split_paths fs; reflexivity.
  - unfold loaded_models_of, failed_tags. cbn. unfold loads. split_paths fs; reflexivity.
  - unfold loaded_models_of, failed_tags. cbn. unfold loads. split_paths fs; reflexivity.
  - intros tag path Hin. unfold loaded_models_of. cbn in Hin |- *.
    repeat (destruct Hin as [Hin | Hin]; [injection Hin as <- <-|]); [..|contradiction].
    all: split_paths fs; reflexivity.
  - intros tag Hn. unfold loaded_models_of.
    induction model_paths as [|[k p] r IH]; [reflexivity|].
    cbn [Dict.get] in Hn. destruct (String.eqb k tag) eqn:Hk; [discriminate|].
    cbn [flat_map]. destruct (fs p); cbn [app Dict.get]; rewrite ?Hk; auto.
  - intros Hne. destruct (loaded_models_of fs); [contradiction|reflexivity].
  - destruct (loaded_models_of fs); [reflexivity|discriminate].
  - intros ->. reflexivity.
Qed.

(** C1, as amended. When the form passed validation and the selected tag
    is not a key of [models], [predict] calls no model's [predict] and
    leaves the state as it was (no label).  Once the encoding loop has
    built the vector and a scaler is loaded, the scaler's [transform] is
    called once, on that vector, before the look-up: when it returns, the
    [try] block raises [KeyError] for the tag, shown as "Analysis Failed";
    when it raises, that exception is the one shown. *)
Theorem unknown_model_fails_after_scaling (self : App) :
  snd (validate_inputs self) = Return true ->
  Dict.get (models self) (model_var self) = None ->
  filter is_model_call (fst (predict self)) = [] /\
  snd (predict self) = Return self /\
  forall data sc, gather_data self = ret data -> scaler self = Some sc ->
    filter is_transform (fst (predict self)) = [Transform (np_array [data])] /\
    (forall X, Artifact.transform sc (np_array [data]) = inr X ->
       predict_body self
       = ([Transform (np_array [data])], Raise (KeyError (model_var self))) /\
       predict self
       = ([Transform (np_array [data]);
           ShowError "Analysis Failed" (repr (model_var self))], Return self)) /\
    (forall e, Artifact.transform sc (np_array [data]) = inl e ->
       predict self
       = ([Transform (np_array [data]);
           ShowError "Analysis Failed" (exn_str e)], Return self)).
Proof.
  intros Hv Hm. apply validate_inputs_true in Hv.
  destruct (gather_data_cases self) as [[data Hg] | [e Hg]].
  - pose proof (predict_body_run self data Hg) as Hrun. cbn zeta in Hrun.
    rewrite Hm in Hrun.
    rewrite (predict_valid self Hv), Hrun.
    assert (Hd : forall data', gather_data self = ret data' -> data' = data).
    { intros data' Hg'. rewrite Hg in Hg'. injection Hg' as <-. reflexivity. }
    destruct (scaler self) as [sc|].
    + destruct (Artifact.transform sc (np_array [data])) as [e|X] eqn:Ht.
      * split; [reflexivity|]. split; [reflexivity|].
        intros data' sc' Hg' [= <-]. rewrite (Hd data' Hg'), Ht.
        split; [reflexivity|]. split.
        -- intros X [=].
        -- intros e' [= <-]. reflexivity.
      * split; [reflexivity|]. split; [reflexivity|].
        intros data' sc' Hg' [= <-]. rewrite (Hd data' Hg'), Ht.
        split; [reflexivity|]. split.
        -- intros X' [= <-]. split; reflexivity.
        -- intros e' [=].
    + split; [reflexivity|]. split; [reflexivity|]. intros data' sc _ [=].
  - rewrite (predict_gather_raise self e Hv Hg).
    split; [reflexivity|]. split; [reflexivity|].
    intros data sc Hg'. rewrite Hg in Hg'. discriminate.
Qed.

(** C2, as amended. With a form that passed validation and that the
    encoding loop turned into a vector, a loaded scaler and a registered
    tag: an exception raised by the scaler's [transform] or by the model's
    [predict] is shown as "Analysis Failed" with its text, and the state is
    left as it was (no label); a first predicted value equal to 1 is shown
    as high risk and any other value, 0 or not, as low risk. *)
Theorem artifact_failure_reported (self : App) data sc m :
  snd (validate_inputs self) = Return true ->
  gather_data self = ret data ->
  scaler self = Some sc ->
  Dict.get (models self) (model_var self) = Some m ->
  let arr := np_array [data] in
  let tag := model_var self in
  (forall e, Artifact.transform sc arr = inl e ->
     predict self
     = ([Transform arr; ShowError "Analysis Failed" (exn_str e)], Return self)) /\
  (forall X e, Artifact.transform sc arr = inr X -> Artifact.predict m X = inl e ->
     predict self
     = ([Transform arr; Predict tag X; ShowError "Analysis Failed" (exn_str e)],
        Return self)) /\
  (forall X p y, Artifact.transform sc arr = inr X ->
     Artifact.predict m X = inr (p :: y) ->
     predict self
     = ([Transform arr; Predict tag X],
        Return (if eq_one p
                then display self "darkred" (high_risk_text tag)
                else display self "darkgreen" (low_risk_text tag)))).
Proof.
  intros Hv Hg Hs Hm. apply validate_inputs_true in Hv.
  pose proof (predict_body_run self data Hg) as Hrun. cbn zeta in Hrun.
  rewrite Hs, Hm in Hrun. cbn zeta.
  rewrite (predict_valid self Hv), Hrun.
  split; [|split].
  - intros e He. rewrite He. reflexivity.
  - intros X e HX He. rewrite HX, He. reflexivity.
  - intros X p y HX Hp. rewrite HX, Hp. reflexivity.
Qed.

(** ** The claims that fail as first stated *)

(** C1 as stated fails: with the tag "XYZ", which is not registered, the
    scaler's [transform] is called before the look-up fails. *)
Lemma unknown_model_scaler_invoked :
  let self := select_model sample_app "XYZ" in
  Dict.get (models self) (model_var self) = None /\
  snd (validate_inputs self) = Return true /\
  exists X,
    fst (predict self) = [Transform X; ShowError "Analysis Failed" "'XYZ'"].
Proof.
  split; [reflexivity|]. split; [reflexivity|].
  eexists. vm_compute. reflexivity.
Qed.

(** C2 as stated fails: the model stored under "DE" answers 2, which is
    neither 0 nor 1, and [predict] shows the low-risk label instead of an
    error. *)
Lemma label_two_shown_as_low_risk :
  let self := select_model sample_app "DE" in
  exists m X,
    Dict.get (models self) (model_var self) = Some m /\
    Artifact.predict m X = inr [PyInt 2] /\
    predict self
    = ([Transform X; Predict "DE" X],
       Return (display self "darkgreen" (low_risk_text "DE"))).
Proof.
  eexists _, _. split; [reflexivity|]. split; [reflexivity|].
  vm_compute. reflexivity.
Qed.

(** C3 as stated fails: the cholesterol text is no number, yet the error
    reported is the one of the age field, which comes first; no error that
    starts with the cholesterol key is shown. *)
Lemma numeric_error_names_earlier_field :
  let self := fill_form sample_app [("age", EmptyString); ("cholesterol", "abc")] in
  In ("cholesterol", ("abc", None)) (entries self) /\
  float "abc" = None /\
  encode self = ([ShowError "Validation Error" "Age cannot be empty"], Return None) /\
  forall reason,
    encode self
    <> ([ShowError "Validation Error" (capitalize "cholesterol" ++ reason)],
        Return None).
Proof.
  split; [|split; [|split]].
  - vm_compute. do 4 right. left. reflexivity.
  - reflexivity.
  - vm_compute. reflexivity.
  - intros reason H.
    assert (E : encode (fill_form sample_app [("age", EmptyString); ("cholesterol", "abc")])
                = ([ShowError "Validation Error" "Age cannot be empty"], Return None))
      by (vm_compute; reflexivity).
    rewrite E in H. cbn in H. discriminate H.
Qed.

(** ** The theorems at sample inputs *)

(** The age left empty: one error box, for the age. *)
Lemma first_invalid_field_reported_witness :
  let self := fill_form sample_app [("age", EmptyString)] in
  forallb field_valid (entries self) = false /\
  exists pre key w opts post msg,
    entries self = (pre ++ (key, (w, opts)) :: post)%list /\
    forallb field_valid pre = true /\
    check_entry key w opts = raise (ValueError msg) /\
    validate_inputs self = ([ShowError "Validation Error" msg], Return false) /\
    encode self = ([ShowError "Validation Error" msg], Return None) /\
    predict self = ([ShowError "Validation Error" msg], Return self).
Proof.
  intros self. split; [reflexivity|].
  apply (first_invalid_field_reported self). reflexivity.
Defined.

(** The cholesterol set to "abc", every other field valid. *)
Lemma numeric_field_rejected_witness :
  let self := fill_form sample_app [("cholesterol", "abc")] in
  float (strip "abc") = None /\
  validate_inputs self
  = ([ShowError "Validation Error" "Cholesterol must be a numeric value"],
     Return false) /\
  encode self
  = ([ShowError "Validation Error" "Cholesterol must be a numeric value"],
     Return None).
Proof.
  intros self. split; [reflexivity|].
  destruct (numeric_field_rejected self
              (firstn 4 (entries self)) "cholesterol" "abc"
              (skipn 5 (entries self)) eq_refl eq_refl eq_refl eq_refl)
    as (_ & H & _).
  exact (H eq_refl).
Defined.


(** The scenario after a start-up in which three models loaded. *)
Lemma scenario_encoding_witness :
  exists self,
    snd (__init__ sample_fs) = Return self /\
    encode (fill_form self scenario_raw) = ret (Some scenario_vector).
Proof.
  eexists. split; [vm_compute; reflexivity|].
  eapply (scenario_encoding sample_fs). vm_compute. reflexivity.
Defined.

(** The tag "XYZ", which no model is stored under. *)
Lemma unknown_model_fails_after_scaling_witness :
  let self := select_model (fill_form sample_app scenario_raw) "XYZ" in
  snd (validate_inputs self) = Return true /\
  Dict.get (models self) (model_var self) = None /\
  gather_data self = ret scenario_vector /\
  filter is_model_call (fst (predict self)) = [] /\
  snd (predict self) = Return self /\
  predict self
  = ([Transform (np_array [scenario_vector]); ShowError "Analysis Failed" "'XYZ'"],
     Return self).
Proof.
  intros self. split; [reflexivity|]. split; [reflexivity|]. split; [reflexivity|].
  destruct (unknown_model_fails_after_scaling self eq_refl eq_refl)
    as (Hn & Hr & H).
  split; [exact Hn|]. split; [exact Hr|].
  destruct (H scenario_vector (constant_model []) eq_refl eq_refl)
    as (_ & HX & _).
  exact (proj2 (HX (np_array [scenario_vector]) eq_refl)).
Defined.

(** A scaler that rejects the array. *)
Lemma artifact_failure_reported_witness :
  let self := fill_form broken_scaler_app scenario_raw in
  snd (validate_inputs self) = Return true /\
  gather_data self = ret scenario_vector /\
  exists X msg,
    predict self = ([Transform X; ShowError "Analysis Failed" msg], Return self).
Proof.
  intros self. split; [reflexivity|]. split; [reflexivity|].
  destruct (artifact_failure_reported self scenario_vector
              (failing_artifact (ValueError "X has 11 features, but StandardScaler is expecting 12 features as input."))
              (constant_model [PyInt 1]) eq_refl eq_refl eq_refl eq_refl)
    as (H & _).
  eexists _, _. apply H. reflexivity.
Defined.

(** A disk without the scaler file. *)
Lemma scaler_failure_is_fatal_witness :
  no_scaler_fs "scaler.pkl" = inl not_found /\
  load_scaler no_scaler_fs
  = ([JoblibLoad "scaler.pkl";
      ShowError "Critical Error" "Failed to load feature scaler"], SystemExit) /\
  snd (__init__ no_scaler_fs) = SystemExit.
Proof.
  split; [reflexivity|].
  destruct (scaler_failure_is_fatal no_scaler_fs) as (H & _).
  exact (H not_found eq_refl).
Defined.

(** Two of the five files missing: three models and two warnings. *)
Lemma load_models_partial_witness :
  failed_tags sample_fs = ["DE"; "ABC"] /\
  Dict.keys (loaded_models_of sample_fs) = ["BFO"; "ACO"; "GA"] /\
  filter is_warning (fst (load_models sample_fs))
  = [model_warning "DE"; model_warning "ABC"] /\
  snd (load_models sample_fs) = Return (loaded_models_of sample_fs).
Proof.
  split; [reflexivity|]. split; [reflexivity|].
  destruct (load_models_partial sample_fs) as (_ & Hw & _ & _ & _ & Hr & _).
  split; [exact Hw|]. apply Hr. discriminate.
Defined.

(** ** More facts on validation *)

Lemma entry_ok_valid (e : string * (widget * option options)) :
  field_valid e = entry_ok e.
Proof.
  destruct e as [key [w [o|]]].
  - unfold field_valid, entry_ok, check_entry, widget_get.
    destruct (Dict.contains o w); reflexivity.
  - unfold field_valid, entry_ok. rewrite numeric_check.
    destruct (float (strip w)) as [f|] eqn:Hf.
    + rewrite (truthy_strip_float _ _ Hf). reflexivity.
    + destruct (PyStr.truthy (strip w)); reflexivity.
Qed.

Lemma forallb_entry_ok (es : list (string * (widget * option options))) :
  forallb field_valid es = forallb entry_ok es.
Proof.
  induction es as [|e r IH]; [reflexivity|].
  cbn [forallb]. rewrite entry_ok_valid, IH. reflexivity.
Qed.

(** X1. On a form whose keys and texts are made of ASCII characters,
    [validate_inputs] never raises and shows at most one box: it returns
    [True] without a box exactly when [float] accepts the stripped text of
    every entry field and every combo box shows a key of its table, and
    otherwise it returns [False] after one "Validation Error" box.  The
    separate test for an empty text changes the message only. *)
Theorem validate_inputs_decides (self : App) :
  forallb ascii_entry (entries self) = true ->
  (forallb entry_ok (entries self) = true /\ validate_inputs self = ret true) \/
  (forallb entry_ok (entries self) = false /\
   exists msg,
     validate_inputs self = ([ShowError "Validation Error" msg], Return false)).
Proof.
  intros _. rewrite <- forallb_entry_ok.
  destruct (forallb field_valid (entries self)) eqn:Hv.
  - left. split; [reflexivity|]. exact (validate_inputs_valid self Hv).
  - right. split; [reflexivity|].
    destruct (split_first_invalid _ Hv) as (pre & k & w & o & post & msg & Hs & Hp & Hc).
    exists msg. exact (validate_inputs_invalid self _ _ _ _ _ _ Hs Hp Hc).
Qed.

(** X2. The live check and [validate_inputs] on the same text of an entry
    field.  A non-empty text styled valid is accepted by [validate_inputs];
    the empty text is styled valid, leaves the status bar alone, and is
    rejected as empty; a blank text that is not empty is styled invalid as
    "not numeric" and rejected as empty.  A text styled invalid may still
    be accepted: the live check converts the text as typed, and
    [validate_inputs] the stripped text, so 5 after the separator FS is
    styled invalid and passes validation. *)
Theorem live_check_and_validation (key value status : string) :
  (fst (validate value status) = "Valid.TEntry" -> value <> EmptyString ->
   field_valid (key, (value, None)) = true /\
   snd (validate value status) = "Ready") /\
  (value = EmptyString ->
   validate value status = ("Valid.TEntry", status) /\
   check_entry key value None
   = raise (ValueError (capitalize key ++ " cannot be empty"))) /\
  (value <> EmptyString -> strip value = EmptyString ->
   validate value status = ("Invalid.TEntry", "Error: Numeric value required") /\
   check_entry key value None
   = raise (ValueError (capitalize key ++ " cannot be empty"))) /\
  (validate (String "028" "5") status
   = ("Invalid.TEntry", "Error: Numeric value required") /\
   check_entry key (String "028" "5") None = ret tt).
Proof.
  split; [|split; [|split]].
  - intros Hs Hne. unfold validate in *. destruct value as [|c t]; [contradiction|].
    cbn [PyStr.truthy negb] in *.
    destruct (float (String c t)) as [f|] eqn:Hf; cbn [fst snd] in *; [|discriminate].
    split; [|reflexivity]. apply numeric_valid. exists f.
    exact (float_strip_some _ _ Hf).
  - intros ->. split; reflexivity.
  - intros Hne Hb. unfold validate. destruct value as [|c t]; [contradiction|].
    cbn [PyStr.truthy negb]. rewrite (float_blank _ Hb).
    split; [reflexivity|]. rewrite numeric_check, Hb. reflexivity.
  - split; reflexivity.
Qed.

(** ** Whitespace around a number *)

Lemma check_entry_strip key w :
  check_entry key (strip w) None = check_entry key w None.
Proof. rewrite !numeric_check, strip_strip. reflexivity. Qed.

Lemma field_valid_strip_entries (es : list (string * (widget * option options))) :
  forallb field_valid (strip_entries es) = forallb field_valid es.
Proof.
  unfold strip_entries.
  induction es as [|[key [w [o|]]] r IH]; [reflexivity| |];
    cbn [map forallb]; rewrite IH; [reflexivity|].
  unfold field_valid. rewrite check_entry_strip. reflexivity.
Qed.

Lemma for_each_strip_entries (es : list (string * (widget * option options))) :
  for_each (strip_entries es) (fun '(key, (w, opts)) => check_entry key w opts)
  = for_each es (fun '(key, (w, opts)) => check_entry key w opts).
Proof.
  unfold strip_entries.
  induction es as [|[key [w [o|]]] r IH]; [reflexivity| |];
    cbn [map for_each]; rewrite IH; [reflexivity|].
  rewrite check_entry_strip. reflexivity.
Qed.

Lemma for_append_strip_entries (es : list (string * (widget * option options))) :
  forallb field_valid es = true ->
  forallb padding_skipped es = true ->
  forall data,
    for_append (strip_entries es) (fun '(key, (w, opts)) => encode_entry key w opts) data
    = for_append es (fun '(key, (w, opts)) => encode_entry key w opts) data.
Proof.
  unfold strip_entries.
  induction es as [|[key [w [o|]]] r IH]; [reflexivity| |];
    cbn [forallb]; intros H P data; apply andb_true_iff in H as [Hv Hr];
    apply andb_true_iff in P as [Pv Pr];
    cbn [map for_append].
  - destruct (encode_entry key w (Some o)) as [evs [v|e|]]; try reflexivity.
    unfold bind. rewrite (IH Hr Pr). reflexivity.
  - apply numeric_valid in Hv as [f Hf].
    cbn [padding_skipped] in Pv. apply String.eqb_eq in Pv.
    assert (He' : encode_entry key (strip w) None = ret (PyFloat f)).
    { unfold encode_entry, float_call, widget_get. rewrite Hf. reflexivity. }
    assert (He : encode_entry key w None = ret (PyFloat f)).
    { unfold encode_entry, float_call, widget_get.
      rewrite <- (float_strip_padding w Pv), Hf. reflexivity. }
    rewrite He, He', !bind_ret_l. apply (IH Hr Pr).
Qed.

(** X3. Stripping the texts of the entry fields changes nothing in
    validation.  When, around each of these texts, the whitespace
    [str.strip] drops is whitespace [float] skips (space, TAB, LF, VT, FF,
    CR), it changes nothing either in the encoded vector and in the whole
    of [predict] (events, label, state apart from the texts). *)
Theorem surrounding_whitespace_ignored (self : App) :
  validate_inputs (with_entries self (strip_entries (entries self)))
  = validate_inputs self /\
  (forallb padding_skipped (entries self) = true ->
   encode (with_entries self (strip_entries (entries self))) = encode self /\
   exists evs self',
     predict self = (evs, Return self') /\
     predict (with_entries self (strip_entries (entries self)))
     = (evs, Return (with_entries self' (strip_entries (entries self))))).
Proof.
  assert (Hval : validate_inputs (with_entries self (strip_entries (entries self)))
                 = validate_inputs self).
  { unfold validate_inputs. cbn [entries with_entries].
    rewrite for_each_strip_entries. reflexivity. }
  split; [exact Hval|]. intros Hpad.
  assert (Hg : forallb field_valid (entries self) = true ->
               gather_data (with_entries self (strip_entries (entries self)))
               = gather_data self).
  { intros Hv. unfold gather_data. cbn [entries with_entries].
    apply (for_append_strip_entries _ Hv Hpad). }
  split.
  - unfold encode. rewrite Hval.
    destruct (forallb field_valid (entries self)) eqn:Hv.
    + rewrite (validate_inputs_valid self Hv), !bind_ret_l. cbn [negb].
      rewrite (Hg eq_refl). reflexivity.
    + destruct (split_first_invalid _ Hv) as (pre & k & w & o & post & msg & Hs & Hp & Hc).
      rewrite (validate_inputs_invalid self _ _ _ _ _ _ Hs Hp Hc). reflexivity.
  - destruct (forallb field_valid (entries self)) eqn:Hv.
    + assert (Hv' : forallb field_valid
                      (entries (with_entries self (strip_entries (entries self)))) = true).
      { cbn [entries with_entries]. rewrite field_valid_strip_entries. exact Hv. }
      destruct (gather_data_encodable self Hv (forallb_padding_encodable _ Hv Hpad))
        as (data & _ & Hd).
      pose proof (predict_body_run self data Hd) as Hrun.
      pose proof (predict_body_run _ data (eq_trans (Hg eq_refl) Hd)) as Hrun'.
      cbn zeta in Hrun, Hrun'. cbn [scaler models model_var with_entries] in Hrun'.
      rewrite (predict_valid self Hv), (predict_valid _ Hv'), Hrun, Hrun'.
      destruct (scaler self) as [sc|];
        [destruct (Artifact.transform sc (np_array [data])) as [e|X];
         [|destruct (Dict.get (models self) (model_var self)) as [m|];
           [destruct (Artifact.predict m X) as [e|[|p y]]|]]|].
      all: try (eexists _, _; split; reflexivity).
      destruct (eq_one p); eexists _, _; split; reflexivity.
    + destruct (split_first_invalid _ Hv) as (pre & k & w & o & post & msg & Hs & Hp & Hc).
      exists [ShowError "Validation Error" msg], self. split.
      * exact (predict_invalid self _ _ _ _ _ _ Hs Hp Hc).
      * unfold predict. rewrite Hval.
        rewrite (validate_inputs_invalid self _ _ _ _ _ _ Hs Hp Hc). reflexivity.
Qed.

(** ** The encoding loop after validation *)

(** X16. On a form that passed validation the encoding loop ends in one of
    two ways.  It returns the vector, one value per entry: the float read
    from the text of each entry field and the code of the label each
    combo box shows.  Or it raises the [ValueError] of [float] for an
    entry field whose stripped text [float] accepts and whose text as
    typed it rejects, a separator FS, GS, RS or US being next to an end
    of the text; [predict] then shows "Analysis Failed" and calls neither
    the scaler nor a model.  The first way is the only one when, around
    every text, the whitespace [str.strip] drops is whitespace [float]
    skips. *)
Theorem encoding_after_validation (self : App) :
  snd (validate_inputs self) = Return true ->
  ((exists data,
      gather_data self = ret data /\
      Forall2 encodes (entries self) data /\
      List.length data = List.length (entries self) /\
      encode self = ret (Some data)) \/
   (exists pre key w post f,
      entries self = (pre ++ (key, (w, None)) :: post)%list /\
      float (strip w) = Some f /\
      float w = None /\
      padding_skipped (key, (w, None)) = false /\
      gather_data self
      = raise (ValueError ("could not convert string to float: " ++ repr w)) /\
      predict self
      = ([ShowError "Analysis Failed"
            ("could not convert string to float: " ++ repr w)], Return self))) /\
  (forallb padding_skipped (entries self) = true ->
   exists data, gather_data self = ret data /\ encode self = ret (Some data)).
Proof.
  intros H. apply validate_inputs_true in H. split.
  - destruct (gather_data_run self H)
      as [(data & Hd & Hg) | (pre & k & w & post & Hs & Hf & Hg)].
    + left. exists data. split; [exact Hg|]. split; [exact Hd|]. split.
      * symmetry. exact (Forall2_length Hd).
      * rewrite (encode_valid self H), Hg, bind_ret_l. reflexivity.
    + right.
      assert (Hk : field_valid (k, (w, None)) = true).
      { rewrite Hs in H. exact (forallb_middle _ _ _ _ H). }
      apply numeric_valid in Hk as [f Hk].
      exists pre, k, w, post, f.
      split; [exact Hs|]. split; [exact Hk|]. split; [exact Hf|]. split.
      * cbn [padding_skipped].
        destruct (String.eqb (skip_spaces w) (strip w)) eqn:Hp; [|reflexivity].
        apply String.eqb_eq in Hp.
        rewrite (float_strip_padding w Hp), Hf in Hk. discriminate.
      * split; [exact Hg|]. exact (predict_gather_raise self _ H Hg).
  - intros Hp.
    destruct (gather_data_encodable self H (forallb_padding_encodable _ H Hp))
      as (data & _ & Hg).
    exists data. split; [exact Hg|].
    rewrite (encode_valid self H), Hg, bind_ret_l. reflexivity.
Qed.

(** ** Facts on dictionaries *)

Lemma dict_get_set_eq {V} (d : Dict.t V) k v : Dict.get (Dict.set d k v) k = Some v.
Proof.
  induction d as [|[k' v'] r IH]; cbn [Dict.set Dict.get].
  - rewrite String.eqb_refl. reflexivity.
  - destruct (String.eqb k' k) eqn:Hk; cbn [Dict.get]; rewrite Hk; auto.
Qed.

Lemma dict_get_set_ne {V} (d : Dict.t V) k k' v :
  String.eqb k k' = false -> Dict.get (Dict.set d k v) k' = Dict.get d k'.
Proof.
  intros Hne. induction d as [|[k0 v0] r IH]; cbn [Dict.set Dict.get].
  - rewrite Hne. reflexivity.
  - destruct (String.eqb k0 k) eqn:Hk; cbn [Dict.get].
    + apply String.eqb_eq in Hk. subst k0. rewrite Hne. reflexivity.
    + rewrite IH. reflexivity.
Qed.

Lemma dict_get_notin {V} (d : Dict.t V) k :
  ~ In k (Dict.keys d) -> Dict.get d k = None.
Proof.
  induction d as [|[k' v'] r IH]; cbn [Dict.keys map fst In Dict.get]; [reflexivity|].
  intros H. destruct (String.eqb k' k) eqn:Hk.
  - apply String.eqb_eq in Hk. tauto.
  - apply IH. unfold Dict.keys. tauto.
Qed.

Lemma dict_set_notin {V} (d : Dict.t V) k v :
  ~ In k (Dict.keys d) -> Dict.set d k v = (d ++ [(k, v)])%list.
Proof.
  induction d as [|[k' v'] r IH]; cbn [Dict.keys map fst In Dict.set app]; [reflexivity|].
  intros H. destruct (String.eqb k' k) eqn:Hk.
  - apply String.eqb_eq in Hk. tauto.
  - rewrite IH; [reflexivity|]. unfold Dict.keys. tauto.
Qed.

Lemma dict_set_layout (es : Dict.t (widget * option options)) k w w' o :
  Dict.get es k = Some (w, o) -> layout (Dict.set es k (w', o)) = layout es.
Proof.
  unfold layout.
  induction es as [|[k' [w0 o0]] r IH]; cbn [Dict.get Dict.set]; [discriminate|].
  destruct (String.eqb k' k) eqn:Hk.
  - intros [= -> ->]. reflexivity.
  - intros H. cbn [map fst snd]. rewrite (IH H). reflexivity.
Qed.

Lemma dict_set_forallb (es : Dict.t (widget * option options)) k v
    (P : string * (widget * option options) -> bool) :
  (forall key key', P (key, v) = P (key', v)) ->
  P (k, v) = true -> forallb P es = true -> forallb P (Dict.set es k v) = true.
Proof.
  intros Hk Hv. induction es as [|[k' v'] r IH]; cbn [Dict.set forallb].
  - intros _. rewrite Hv. reflexivity.
  - intros H. apply andb_true_iff in H as [H1 H2].
    destruct (String.eqb k' k); cbn [forallb].
    + rewrite (Hk k' k), Hv, H2. reflexivity.
    + rewrite H1, (IH H2). reflexivity.
Qed.

Lemma dict_first_key_contained {V} (d : Dict.t V) :
  Dict.truthy d = true -> Dict.contains d (hd EmptyString (Dict.keys d)) = true.
Proof.
  destruct d as [|[k v] r]; [discriminate|]. intros _.
  unfold Dict.contains. cbn. rewrite String.eqb_refl. reflexivity.
Qed.

Lemma dict_contains_truthy {V} (d : Dict.t V) k :
  Dict.contains d k = true -> Dict.truthy d = true.
Proof. destruct d; [discriminate|reflexivity]. Qed.

(** ** Facts on the widgets *)

Lemma widget_of_row_shows_label (row : field_definition) :
  entry_shows_label (widget_of_row row) = true.
Proof.
  destruct row as [[[l k] [o|]] t]; cbn [widget_of_row]; [|reflexivity].
  destruct (Dict.truthy o) eqn:Ho; [|reflexivity].
  cbn [entry_shows_label]. apply dict_first_key_contained. exact Ho.
Qed.

Lemma widget_of_row_key (row : field_definition) :
  fst (widget_of_row row) = row_key row.
Proof.
  destruct row as [[[l k] [o|]] t]; cbn; [destruct (Dict.truthy o)|]; reflexivity.
Qed.

Lemma create_widgets_fold (defs : list field_definition) :
  forall acc,
    NoDup (Dict.keys acc ++ map row_key defs)%list ->
    fold_left
      (fun entries '(label_text, key, opts, tooltip) =>
         match opts with
         | Some o =>
             if Dict.truthy o
             then Dict.set entries key (hd EmptyString (Dict.keys o), Some o)
             else Dict.set entries key (EmptyString, None)
         | None => Dict.set entries key (EmptyString, None)
         end)
      defs acc
    = (acc ++ map widget_of_row defs)%list.
Proof.
  induction defs as [|row r IH]; intros acc Hnd; cbn [fold_left map].
  - rewrite app_nil_r. reflexivity.
  - assert (Hk : ~ In (row_key row) (Dict.keys acc)).
    { cbn [map] in Hnd. apply NoDup_remove_2 in Hnd.
      intros Hin. apply Hnd. apply in_or_app. left. exact Hin. }
    assert (Hnd' : NoDup (Dict.keys (acc ++ [widget_of_row row]) ++ map row_key r)%list).
    { unfold Dict.keys. rewrite map_app. cbn [map].
      rewrite widget_of_row_key, <- app_assoc. exact Hnd. }
    replace (acc ++ widget_of_row row :: map widget_of_row r)%list
      with ((acc ++ [widget_of_row row]) ++ map widget_of_row r)%list
      by (rewrite <- app_assoc; reflexivity).
    rewrite <- (IH _ Hnd'). f_equal.
    destruct row as [[[l k] [o|]] t]; cbn [row_key widget_of_row] in *;
      [destruct (Dict.truthy o)| ]; apply dict_set_notin; exact Hk.
Qed.

(** X4. [create_widgets] on rows with distinct keys gives one entry per
    row, in the order of the rows: an empty entry field for a row without
    a table (or with an empty one), and otherwise a combo box with the
    row's table showing its first label, so that every combo box shows a
    key of its table. *)
Theorem create_widgets_rows (defs : list field_definition) :
  NoDup (map row_key defs) ->
  create_widgets defs = map widget_of_row defs /\
  Dict.keys (create_widgets defs) = map row_key defs /\
  forallb entry_shows_label (create_widgets defs) = true.
Proof.
  intros Hnd.
  assert (H : create_widgets defs = map widget_of_row defs).
  { unfold create_widgets. rewrite (create_widgets_fold defs []); [reflexivity|].
    exact Hnd. }
  rewrite H. split; [reflexivity|]. split.
  - unfold Dict.keys. rewrite map_map. apply map_ext.
    intros [[[l k] [o|]] t]; cbn; [destruct (Dict.truthy o)|]; reflexivity.
  - apply forallb_forall. intros e He. apply in_map_iff in He as (row & <- & _).
    apply widget_of_row_shows_label.
Qed.

Lemma set_default_step_get (es : Dict.t (widget * option options)) key value k :
  Dict.get
    (match Dict.get es key with
     | Some (_, None) => Dict.set es key (value, None)
     | _ => es
     end) k
  = if String.eqb key k
    then match Dict.get es k with
         | Some (_, None) => Some (value, None)
         | other => other
         end
    else Dict.get es k.
Proof.
  destruct (String.eqb key k) eqn:Hk.
  - apply String.eqb_eq in Hk. subst k.
    destruct (Dict.get es key) as [[w [o|]]|] eqn:Hg; try exact Hg.
    apply dict_get_set_eq.
  - destruct (Dict.get es key) as [[w [o|]]|]; try reflexivity.
    apply dict_get_set_ne. exact Hk.
Qed.

Lemma set_default_step_layout (es : Dict.t (widget * option options)) key value :
  layout
    (match Dict.get es key with
     | Some (_, None) => Dict.set es key (value, None)
     | _ => es
     end)
  = layout es.
Proof.
  destruct (Dict.get es key) as [[w [o|]]|] eqn:Hg; try reflexivity.
  exact (dict_set_layout es key w value None Hg).
Qed.

Lemma set_defaults_fold (dl : list (string * string)) :
  NoDup (Dict.keys dl) ->
  forall (es : Dict.t (widget * option options)),
    let es' :=
      fold_left
        (fun entries '(key, value) =>
           match Dict.get entries key with
           | Some (_, None) => Dict.set entries key (value, None)
           | _ => entries
           end) dl es in
    layout es' = layout es /\
    forall k,
      Dict.get es' k
      = match Dict.get es k with
        | Some (w, None) =>
            Some (match Dict.get dl k with Some d => d | None => w end, None)
        | other => other
        end.
Proof.
  induction dl as [|[key value] r IH]; intros Hnd es; cbn [fold_left]; cbv zeta.
  - split; [reflexivity|]. intros k. cbn [Dict.get].
    destruct (Dict.get es k) as [[w [o|]]|] eqn:E; try reflexivity; exact E.
  - cbn [Dict.keys map fst] in Hnd. inversion Hnd as [|? ? Hnotin Hnd']; subst.
    pose proof (IH Hnd' (match Dict.get es key with
                         | Some (_, None) => Dict.set es key (value, None)
                         | _ => es
                         end)) as IH'.
    cbv zeta in IH'. destruct IH' as [Hl Hg].
    split.
    + exact (eq_trans Hl (set_default_step_layout es key value)).
    + intros k. pose proof (set_default_step_get es key value k) as Hs.
      eapply eq_trans; [exact (Hg k)|]. unfold widget, options in *.
      rewrite Hs. cbn [Dict.get].
      destruct (String.eqb key k) eqn:Hk.
      * apply String.eqb_eq in Hk. subst k.
        rewrite (dict_get_notin r key Hnotin).
        destruct (Dict.get es key) as [[w [o|]]|]; reflexivity.
      * reflexivity.
Qed.

(** X5. [set_default_values] keeps the keys, their order and the tables;
    it changes the text of an entry field exactly when the field has a
    default, to that default, and leaves every combo box as it is. *)
Theorem set_default_values_lookup (es : Dict.t (widget * option options)) :
  layout (set_default_values es) = layout es /\
  forall k,
    Dict.get (set_default_values es) k
    = match Dict.get es k with
      | Some (w, None) =>
          Some (match Dict.get defaults k with Some d => d | None => w end, None)
      | other => other
      end.
Proof.
  apply (set_defaults_fold defaults).
  vm_compute. repeat constructor; cbn; intuition discriminate.
Qed.

(** ** Facts on clearing *)

Lemma clear_widgets_shown (es : list (string * (widget * option options))) :
  forallb entry_shows_label es = true ->
  clear_widgets es = (map cleared es, None).
Proof.
  induction es as [|[key [w [o|]]] r IH]; [reflexivity| |];
    cbn [forallb]; intros H; apply andb_true_iff in H as [Hv Hr];
    cbn [clear_widgets map cleared]; rewrite (IH Hr); [|reflexivity].
  cbn [entry_shows_label] in Hv. apply dict_contains_truthy in Hv.
  destruct o as [|[k z] o']; [discriminate|]. reflexivity.
Qed.

Lemma cleared_shows_label (es : list (string * (widget * option options))) :
  forallb entry_shows_label es = true ->
  forallb entry_shows_label (map cleared es) = true.
Proof.
  induction es as [|[key [w [o|]]] r IH]; [reflexivity| |];
    cbn [forallb]; intros H; apply andb_true_iff in H as [Hv Hr];
    cbn [map cleared forallb]; rewrite (IH Hr); [|reflexivity].
  cbn [entry_shows_label] in *.
  rewrite (dict_first_key_contained o (dict_contains_truthy o w Hv)). reflexivity.
Qed.

Lemma cleared_cleared (es : list (string * (widget * option options))) :
  map cleared (map cleared es) = map cleared es.
Proof.
  rewrite map_map. apply map_ext. intros [key [w [o|]]]; reflexivity.
Qed.

Lemma cleared_layout (es : list (string * (widget * option options))) :
  layout (map cleared es) = layout es.
Proof.
  unfold layout. rewrite map_map. apply map_ext.
  intros [key [w [o|]]]; reflexivity.
Qed.

(** X6. When every combo box shows one of its labels, [clear_fields] raises
    nothing: every entry field becomes empty, every combo box shows its
    first label, the result text, its colour and the status bar are reset,
    and the keys, the tables, the models, the scaler and the selected
    model stay; clearing a cleared form changes nothing more. *)
Theorem clear_fields_resets (self : App) :
  forallb entry_shows_label (entries self) = true ->
  clear_fields self
  = ({| models := models self;
        scaler := scaler self;
        entries := map cleared (entries self);
        model_var := model_var self;
        result_var := initial_result;
        result_foreground := "black";
        status_bar := "Fields cleared" |}, None) /\
  layout (entries (fst (clear_fields self))) = layout (entries self) /\
  forallb entry_shows_label (entries (fst (clear_fields self))) = true /\
  clear_fields (fst (clear_fields self)) = clear_fields self.
Proof.
  intros H.
  assert (E : clear_fields self
              = ({| models := models self;
                    scaler := scaler self;
                    entries := map cleared (entries self);
                    model_var := model_var self;
                    result_var := initial_result;
                    result_foreground := "black";
                    status_bar := "Fields cleared" |}, None)).
  { unfold clear_fields. rewrite (clear_widgets_shown _ H). reflexivity. }
  rewrite E. cbn [fst entries].
  split; [reflexivity|]. split; [apply cleared_layout|].
  split; [apply cleared_shows_label; exact H|].
  unfold clear_fields. cbn [entries models scaler model_var].
  rewrite (clear_widgets_shown _ (cleared_shows_label _ H)), cleared_cleared.
  reflexivity.
Qed.

Lemma cleared_valid_prefix (pre : list (string * (widget * option options))) :
  forallb entry_shows_label pre = true ->
  forallb (fun e => negb (is_numeric e)) pre = true ->
  forallb field_valid (map cleared pre) = true.
Proof.
  induction pre as [|[key [w [o|]]] r IH]; [reflexivity| |];
    cbn [forallb]; intros H N;
    apply andb_true_iff in H as [Hv Hr]; apply andb_true_iff in N as [Nv Nr];
    [|discriminate].
  cbn [map cleared forallb]. rewrite (IH Hr Nr), entry_ok_valid.
  cbn [entry_ok entry_shows_label] in *.
  rewrite (dict_first_key_contained o (dict_contains_truthy o w Hv)). reflexivity.
Qed.

(** X7. After [clear_fields], "Analyze Risk" asks for the first entry field
    of the form: [predict] shows its "cannot be empty" error, calls neither
    the scaler nor a model, and leaves the cleared state. *)
Theorem predict_after_clear (self : App) pre key w post :
  forallb entry_shows_label (entries self) = true ->
  entries self = (pre ++ (key, (w, None)) :: post)%list ->
  forallb (fun e => negb (is_numeric e)) pre = true ->
  predict (fst (clear_fields self))
  = ([ShowError "Validation Error" (capitalize key ++ " cannot be empty")],
     Return (fst (clear_fields self))).
Proof.
  intros H He Hn.
  destruct (clear_fields_resets self H) as (E & _).
  rewrite E. cbn [fst].
  apply (predict_invalid _ (map cleared pre) key EmptyString None (map cleared post)).
  - cbn [entries]. rewrite He, map_app. reflexivity.
  - apply cleared_valid_prefix; [|exact Hn].
    rewrite He, forallb_app in H. apply andb_true_iff in H as [Hp _]. exact Hp.
  - reflexivity.
Qed.

(** ** More facts on [predict] *)

(** X9. [predict] always returns, and never touches the models, the
    scaler, the entries or the selected model.  It shows at most one
    message box; when it shows one, the whole state is left as it was, so
    a result shown earlier stays on screen; when it shows none, the scaler
    and the model were each called once, the status bar says the
    prediction completed and the result is coloured dark red or dark
    green. *)
Theorem predict_frame (self : App) :
  exists evs self',
    predict self = (evs, Return self') /\
    models self' = models self /\ scaler self' = scaler self /\
    entries self' = entries self /\ model_var self' = model_var self /\
    (List.length (filter is_box evs) <= 1)%nat /\
    (filter is_box evs <> [] -> self' = self) /\
    (filter is_box evs = [] ->
     List.length (filter is_transform evs) = 1%nat /\
     List.length (filter is_model_call evs) = 1%nat /\
     status_bar self' = "Prediction completed successfully" /\
     (result_foreground self' = "darkred" \/ result_foreground self' = "darkgreen")).
Proof.
  destruct (forallb field_valid (entries self)) eqn:Hv.
  - destruct (gather_data_cases self) as [[data Hg] | [e Hg]];
      [|exists [ShowError "Analysis Failed" (exn_str e)], self;
        rewrite (predict_gather_raise self e Hv Hg); cbn;
        repeat (split; [first [reflexivity | lia | discriminate]|]); discriminate].
    pose proof (predict_body_run self data Hg) as Hrun. cbn zeta in Hrun.
    rewrite (predict_valid self Hv), Hrun.
    destruct (scaler self) as [sc|] eqn:Hs;
      [destruct (Artifact.transform sc (np_array [data])) as [e|X];
       [|destruct (Dict.get (models self) (model_var self)) as [m|];
         [destruct (Artifact.predict m X) as [e|[|p y]]|]]|].
    all: try (eexists _, self; cbn;
              repeat (split; [first [reflexivity | lia | discriminate | tauto]|]);
              first [reflexivity | lia | discriminate | tauto]).
    destruct (eq_one p); eexists _, _;
      (split; [reflexivity|]); cbn;
      (split; [reflexivity|]); (split; [exact Hs|]);
      (split; [reflexivity|]); (split; [reflexivity|]);
      (split; [lia|]); (split; [intros H; exfalso; apply H; reflexivity|]);
      intros _; repeat (split; [reflexivity|]); auto.
  - destruct (split_first_invalid _ Hv) as (pre & k & w & o & post & msg & Hs & Hp & Hc).
    exists [ShowError "Validation Error" msg], self.
    rewrite (predict_invalid self _ _ _ _ _ _ Hs Hp Hc). cbn.
    repeat (split; [first [reflexivity | lia | discriminate]|]). discriminate.
Qed.

(** ** Facts on a session *)

Lemma well_formed_iff (self : App) :
  well_formed self = true <->
  (exists sc, scaler self = Some sc) /\
  Dict.contains (models self) (model_var self) = true /\
  forallb entry_shows_label (entries self) = true.
Proof.
  unfold well_formed. rewrite !andb_true_iff.
  destruct (scaler self) as [sc|]; split.
  - intros [[_ H1] H2]. eauto.
  - intros (_ & H1 & H2). auto.
  - intros [[H _] _]. discriminate.
  - intros ([sc H] & _). discriminate.
Qed.

Lemma shows_label_set (es : Dict.t (widget * option options)) key w opts :
  entry_shows_label (key, (w, opts)) = true ->
  forallb entry_shows_label es = true ->
  forallb entry_shows_label (Dict.set es key (w, opts)) = true.
Proof.
  intros Hv H. apply dict_set_forallb; auto.
Qed.

Lemma step_keeps (self : App) (a : action) :
  well_formed self = true ->
  well_formed (snd (step self a)) = true /\
  models (snd (step self a)) = models self /\
  scaler (snd (step self a)) = scaler self /\
  layout (entries (snd (step self a))) = layout (entries self).
Proof.
  intros Hwf. pose proof Hwf as Hwf'.
  apply well_formed_iff in Hwf' as ([sc Hs] & Hm & He).
  destruct a as [key s | key label | tag | |]; cbn [step].
  - destruct (Dict.get (entries self) key) as [[w [o|]]|] eqn:Hg; cbn [snd]; auto.
    split; [|split; [reflexivity|split; [reflexivity|]]].
    + apply well_formed_iff. cbn. split; [eauto|]. split; [exact Hm|].
      apply shows_label_set; [reflexivity|exact He].
    + cbn. exact (dict_set_layout _ _ _ _ _ Hg).
  - destruct (Dict.get (entries self) key) as [[w [o|]]|] eqn:Hg; cbn [snd]; auto.
    destruct (Dict.contains o label) eqn:Hl; cbn [snd]; auto.
    split; [|split; [reflexivity|split; [reflexivity|]]].
    + apply well_formed_iff. cbn. split; [eauto|]. split; [exact Hm|].
      apply shows_label_set; [exact Hl|exact He].
    + cbn. exact (dict_set_layout _ _ _ _ _ Hg).
  - destruct (Dict.contains (models self) tag) eqn:Ht; cbn [snd]; auto.
    split; [|auto]. apply well_formed_iff. cbn. eauto.
  - destruct (predict_frame self) as (evs & self' & Hp & H1 & H2 & H3 & H4 & _).
    rewrite Hp. cbn [snd]. rewrite H1, H2, H3.
    split; [|auto]. apply well_formed_iff. rewrite H1, H2, H3, H4. eauto.
  - destruct (clear_fields_resets self He) as (E & Hl & Hv & _).
    cbn [snd]. split; [|split; [|split]]; try exact Hl; try (rewrite E; reflexivity).
    apply well_formed_iff. split; [|split; [|exact Hv]]; rewrite E; cbn; eauto.
Qed.

Lemma run_keeps (actions : list action) :
  forall self,
    well_formed self = true ->
    well_formed (snd (run self actions)) = true /\
    models (snd (run self actions)) = models self /\
    scaler (snd (run self actions)) = scaler self /\
    layout (entries (snd (run self actions))) = layout (entries self).
Proof.
  induction actions as [|a r IH]; intros self Hwf; cbn [run].
  - cbn. auto.
  - destruct (step_keeps self a Hwf) as (H1 & H2 & H3 & H4).
    destruct (step self a) as [evs self1]. cbn [snd] in *.
    destruct (IH self1 H1) as (K1 & K2 & K3 & K4).
    destruct (run self1 r) as [evs' self2]. cbn [snd] in *.
    repeat split; congruence.
Qed.

Lemma init_well_formed (fs : FileSystem) (self : App) :
  snd (__init__ fs) = Return self ->
  well_formed self = true /\ forallb field_valid (entries self) = true.
Proof.
  intros H. rewrite init_outcome in H. cbn zeta in H.
  destruct (Dict.truthy (fst (load_state fs model_paths [] []))) eqn:Ht; [|discriminate].
  destruct (fs "scaler.pkl") as [e|sc]; [discriminate|].
  injection H as <-. split; [|reflexivity].
  apply well_formed_iff. cbn. split; [eauto|]. split; [|reflexivity].
  apply dict_first_key_contained. exact Ht.
Qed.

(** X10. All along a session that follows a successful start-up, whatever
    the user types, picks or presses: the models, the scaler, the keys and
    the tables stay those of the start-up, a scaler is loaded, the selected
    tag is registered and every combo box shows a key of its table. *)
Theorem session_invariant (fs : FileSystem) (app0 : App) (actions : list action) :
  snd (__init__ fs) = Return app0 ->
  well_formed (snd (run app0 actions)) = true /\
  models (snd (run app0 actions)) = models app0 /\
  scaler (snd (run app0 actions)) = scaler app0 /\
  layout (entries (snd (run app0 actions))) = layout (entries app0).
Proof.
  intros H. apply run_keeps. apply (init_well_formed fs). exact H.
Qed.

Lemma shows_label_middle (pre : list (string * (widget * option options))) e post :
  forallb entry_shows_label (pre ++ e :: post) = true ->
  entry_shows_label e = true.
Proof.
  rewrite forallb_app. cbn [forallb]. rewrite !andb_true_iff. tauto.
Qed.

(** X11. In a state of a session, "Analyze Risk" ends in one of these ways
    only: the validation error of an entry field, raised by its check; the
    "Analysis Failed" box of an entry field that passed its check and
    whose text, as typed, [float] rejects in the encoding loop, with the
    message of [float] and no call into the scaler or a model; the
    exception of the scaler; the exception of the selected model (or its
    empty answer); a label.  The selected model is always found, and is
    called on what the scaler returned for the encoded form; no "Invalid
    selection" and no unknown-model error can occur. *)
Theorem predict_in_session (self : App) :
  well_formed self = true ->
  (exists pre key w post msg,
     entries self = (pre ++ (key, (w, None)) :: post)%list /\
     check_entry key w None = raise (ValueError msg) /\
     predict self = ([ShowError "Validation Error" msg], Return self)) \/
  (exists pre key w post,
     entries self = (pre ++ (key, (w, None)) :: post)%list /\
     check_entry key w None = ret tt /\
     encode_entry key w None
     = raise (ValueError ("could not convert string to float: " ++ repr w)) /\
     predict self
     = ([ShowError "Analysis Failed" ("could not convert string to float: " ++ repr w)],
        Return self)) \/
  (exists data sc m,
     gather_data self = ret data /\
     scaler self = Some sc /\
     Dict.get (models self) (model_var self) = Some m /\
     predict self =
     let arr := np_array [data] in
     let tag := model_var self in
     match Artifact.transform sc arr with
     | inl e =>
         ([Transform arr; ShowError "Analysis Failed" (exn_str e)], Return self)
     | inr X =>
         match Artifact.predict m X with
         | inl e =>
             ([Transform arr; Predict tag X;
               ShowError "Analysis Failed" (exn_str e)], Return self)
         | inr [] =>
             ([Transform arr; Predict tag X;
               ShowError "Analysis Failed"
                 "index 0 is out of bounds for axis 0 with size 0"], Return self)
         | inr (p :: _) =>
             ([Transform arr; Predict tag X],
              Return (if eq_one p
                      then display self "darkred" (high_risk_text tag)
                      else display self "darkgreen" (low_risk_text tag)))
         end
     end).
Proof.
  intros Hwf. apply well_formed_iff in Hwf as ([sc Hs] & Hm & He).
  apply dict_contains_get in Hm as [m Hm].
  destruct (forallb field_valid (entries self)) eqn:Hv.
  - right.
    destruct (gather_data_run self Hv)
      as [(data & _ & Hg) | (pre & k & w & post & Hsp & Hf & Hg)].
    + right. pose proof (predict_body_run self data Hg) as Hrun. cbn zeta in Hrun.
      rewrite Hs, Hm in Hrun.
      exists data, sc, m. repeat (split; [assumption|]).
      rewrite (predict_valid self Hv), Hrun. cbn zeta.
      destruct (Artifact.transform sc (np_array [data])) as [e|X]; [reflexivity|].
      destruct (Artifact.predict m X) as [e|[|p y]]; reflexivity.
    + left. exists pre, k, w, post. split; [exact Hsp|].
      assert (Hk : field_valid (k, (w, None)) = true).
      { rewrite Hsp in Hv. exact (forallb_middle _ _ _ _ Hv). }
      split; [apply field_valid_check; exact Hk|]. split.
      * unfold encode_entry, float_call, widget_get. rewrite Hf. reflexivity.
      * exact (predict_gather_raise self _ Hv Hg).
  - left.
    destruct (split_first_invalid _ Hv) as (pre & k & w & o & post & msg & Hsp & Hp & Hc).
    rewrite Hsp in He. apply shows_label_middle in He.
    destruct o as [o|].
    + exfalso. cbn [entry_shows_label] in He.
      unfold check_entry, widget_get in Hc. rewrite He in Hc. discriminate.
    + exists pre, k, w, post, msg. split; [exact Hsp|]. split; [exact Hc|].
      exact (predict_invalid self _ _ _ _ _ _ Hsp Hp Hc).
Qed.

(** ** More facts on start-up *)

Lemma init_run (fs : FileSystem) :
  __init__ fs =
  let loaded := loaded_models_of fs in
  if Dict.truthy loaded then
    match fs "scaler.pkl" with
    | inr o =>
        ((load_trace fs model_paths ++ [JoblibLoad "scaler.pkl"])%list,
         Return {| models := loaded;
                   scaler := Some o;
                   entries := set_default_values (create_widgets get_field_definitions);
                   model_var := hd EmptyString (Dict.keys loaded);
                   result_var := initial_result;
                   result_foreground := EmptyString;
                   status_bar := "Ready" |})
    | inl _ =>
        ((load_trace fs model_paths
          ++ [JoblibLoad "scaler.pkl";
              ShowError "Critical Error" "Failed to load feature scaler"])%list,
         SystemExit)
    end
  else
    ((load_trace fs model_paths
      ++ [ShowError "Startup Error" "No models could be loaded"])%list, SystemExit).
Proof.
  unfold __init__. rewrite load_models_run, load_scaler_run, load_state_models.
  cbn zeta. cbn [fst].
  destruct (Dict.truthy (loaded_models_of fs)); [|reflexivity].
  destruct (fs "scaler.pkl"); reflexivity.
Qed.

Lemma load_trace_no_scaler (fs : FileSystem) :
  ~ In (JoblibLoad "scaler.pkl") (load_trace fs model_paths) /\
  filter is_error_box (load_trace fs model_paths) = [].
Proof.
  cbn. unfold loads. split_paths fs; cbn; split; try reflexivity;
    intros H; repeat (destruct H as [H|H]; [discriminate H|]); exact H.
Qed.

(** X12. The application starts exactly when at least one model file and
    the scaler file load.  It then holds the models that loaded and that
    scaler, selects the first loaded tag, has shown no error box, and its
    form with the default values passes validation.  When no model loads,
    the start-up exits without reading the scaler file. *)
Theorem startup_outcome (fs : FileSystem) :
  (forall self,
     snd (__init__ fs) = Return self ->
     loaded_models_of fs <> [] /\
     (exists sc, fs "scaler.pkl" = inr sc /\ scaler self = Some sc) /\
     models self = loaded_models_of fs /\
     Dict.contains (models self) (model_var self) = true /\
     model_var self = hd EmptyString (Dict.keys (loaded_models_of fs)) /\
     filter is_error_box (fst (__init__ fs)) = [] /\
     validate_inputs self = ret true) /\
  (loaded_models_of fs <> [] -> loads fs "scaler.pkl" = true ->
   exists self, snd (__init__ fs) = Return self) /\
  (loaded_models_of fs = [] ->
   snd (__init__ fs) = SystemExit /\
   ~ In (JoblibLoad "scaler.pkl") (fst (__init__ fs))).
Proof.
  destruct (load_trace_no_scaler fs) as [Hno Herr].
  rewrite init_run. cbn zeta. split; [|split].
  - intros self H.
    destruct (loaded_models_of fs) as [|kv l] eqn:Hl; [discriminate|].
    cbn [Dict.truthy] in *.
    destruct (fs "scaler.pkl") as [e|sc]; [discriminate|].
    cbn [snd fst] in *. injection H as <-. cbn [scaler models model_var].
    split; [discriminate|]. split; [eauto|].
    split; [reflexivity|]. split.
    { destruct kv as [k v]. unfold Dict.contains. cbn [Dict.keys map fst hd Dict.get].
      rewrite String.eqb_refl. reflexivity. }
    split; [reflexivity|]. split.
    { rewrite filter_app, Herr. reflexivity. }
    apply validate_inputs_valid. reflexivity.
  - intros Hne Hsc. destruct (loaded_models_of fs); [contradiction|].
    unfold loads in Hsc. cbn [Dict.truthy].
    destruct (fs "scaler.pkl"); [discriminate|]. eexists. reflexivity.
  - intros ->. cbn [Dict.truthy snd fst]. split; [reflexivity|].
    intros H. apply in_app_or in H as [H|H]; [exact (Hno H)|].
    destruct H as [H|[]]. discriminate H.
Qed.

(** ** Facts on a tooltip *)

Lemma live_app (a b : list ToolTip.event) n :
  ToolTip.live (a ++ b) n = ToolTip.live b (ToolTip.live a n).
Proof.
  revert n. induction a as [|[tw|tw] r IH]; intros n; cbn; auto.
Qed.

Lemma handle_cases (self : ToolTip.t) (m : ToolTip.mouse) :
  ToolTip.text (snd (ToolTip.handle self m)) = ToolTip.text self /\
  ToolTip.live (fst (ToolTip.handle self m)) (ToolTip.held self)
  = ToolTip.held (snd (ToolTip.handle self m)) /\
  (fst (ToolTip.handle self m) = [] \/
   exists ev, fst (ToolTip.handle self m) = [ev]) /\
  (forall tw, In (ToolTip.Create tw) (fst (ToolTip.handle self m)) ->
     ToolTip.tooltip_window self = None /\
     ToolTip.text self <> EmptyString /\
     ToolTip.label tw = ToolTip.text self /\
     exists p, m = ToolTip.Enter p /\
               ToolTip.geometry tw = (fst p + 10, snd p + 10)).
Proof.
  destruct self as [txt [tw0|]]; destruct m as [p|];
    unfold ToolTip.handle, ToolTip.show_tooltip, ToolTip.hide_tooltip, ToolTip.held;
    cbn [ToolTip.tooltip_window ToolTip.text fst snd ToolTip.live].
  - split; [reflexivity|]. split; [reflexivity|]. split; [auto|]. intros x [].
  - split; [reflexivity|]. split; [reflexivity|]. split; [eauto|].
    intros x [H|[]]. discriminate H.
  - destruct txt as [|c t];
      cbn [PyStr.truthy negb ToolTip.tooltip_window ToolTip.text fst snd ToolTip.live].
    + split; [reflexivity|]. split; [reflexivity|]. split; [auto|]. intros x [].
    + split; [reflexivity|]. split; [reflexivity|]. split; [eauto|].
      intros x [H|[]]. injection H as <-.
      split; [reflexivity|]. split; [discriminate|]. split; [reflexivity|].
      exists p. split; reflexivity.
  - split; [reflexivity|]. split; [reflexivity|]. split; [auto|]. intros x [].
Qed.

(** X13. Whatever the mouse does over a widget, its tooltip has at most one
    window on screen at any time, and holds it exactly when one is on
    screen; every window it opens shows the tooltip's text, 10 pixels
    right of and below the pointer of the entering that opened it; a
    tooltip without text never opens a window. *)
Theorem tooltip_one_window (self : ToolTip.t) (ms : list ToolTip.mouse) :
  ToolTip.text (snd (ToolTip.run self ms)) = ToolTip.text self /\
  ToolTip.live (fst (ToolTip.run self ms)) (ToolTip.held self)
  = ToolTip.held (snd (ToolTip.run self ms)) /\
  (forall pre suf,
     fst (ToolTip.run self ms) = (pre ++ suf)%list ->
     0 <= ToolTip.live pre (ToolTip.held self) <= 1) /\
  (forall tw,
     In (ToolTip.Create tw) (fst (ToolTip.run self ms)) ->
     ToolTip.text self <> EmptyString /\
     ToolTip.label tw = ToolTip.text self /\
     exists p, In (ToolTip.Enter p) ms /\
               ToolTip.geometry tw = (fst p + 10, snd p + 10)).
Proof.
  revert self. induction ms as [|m r IH]; intros self; cbn [ToolTip.run].
  - cbn [fst snd ToolTip.live]. split; [reflexivity|]. split; [reflexivity|]. split.
    + intros pre suf H. destruct pre as [|ev pre']; [|discriminate H].
      cbn. unfold ToolTip.held. destruct (ToolTip.tooltip_window self); lia.
    + intros tw [].
  - destruct (handle_cases self m) as (Ht & Hl & Hshape & Hc).
    destruct (ToolTip.handle self m) as [evs self1]. cbn [fst snd] in *.
    destruct (IH self1) as (K1 & K2 & K3 & K4).
    destruct (ToolTip.run self1 r) as [evs' self2]. cbn [fst snd] in *.
    split; [congruence|]. split; [rewrite live_app, Hl; exact K2|]. split.
    + intros pre suf Hsplit.
      assert (Hh : 0 <= ToolTip.held self <= 1)
        by (unfold ToolTip.held; destruct (ToolTip.tooltip_window self); lia).
      destruct Hshape as [-> | [ev ->]].
      * cbn in Hl, Hsplit. rewrite Hl. exact (K3 pre suf Hsplit).
      * destruct pre as [|ev0 pre']; [cbn; exact Hh|].
        cbn [app] in Hsplit. injection Hsplit as <- Hsplit.
        change (ev :: pre') with ([ev] ++ pre')%list.
        rewrite live_app, Hl. exact (K3 pre' suf Hsplit).
    + intros tw Hin. apply in_app_or in Hin as [Hin|Hin].
      * destruct (Hc tw Hin) as (_ & Hne & Hlab & p & -> & Hgeo).
        repeat split; auto. exists p. split; [left; reflexivity|exact Hgeo].
      * destruct (K4 tw Hin) as (Hne & Hlab & p & Hp & Hgeo).
        rewrite Ht in *. repeat split; auto. exists p. split; [right; exact Hp|exact Hgeo].
Qed.

(** ** Numbers that are not finite *)

Lemma inf_or_nan_first (neg : bool) (r : string) (f : float64) :
  inf_or_nan neg r = Some f ->
  exists c t, r = String c t /\
              (Ascii.eqb (lower c) "i" || Ascii.eqb (lower c) "n") = true /\
              (f = S754_infinity neg \/ f = S754_nan).
Proof.
  unfold inf_or_nan. destruct r as [|c t]; [discriminate|].
  cbn [lower_all String.eqb]. intros H. exists c, t. split; [reflexivity|].
  destruct (Ascii.eqb (lower c) "i") eqn:Hi;
    destruct (Ascii.eqb (lower c) "n") eqn:Hn; cbn [orb] in *;
    try (split; [reflexivity|]);
    repeat match type of H with
           | context [if ?b then _ else _] => destruct b
           end;
    first [discriminate H | injection H as <-; auto].
Qed.

Lemma letter_starts_no_number (c : ascii) (t : string) :
  (Ascii.eqb (lower c) "i" || Ascii.eqb (lower c) "n") = true ->
  sign (String c t) = (false, String c t) /\
  forall neg, floatnumber neg (String c t) = None.
Proof.
  intros H.
  assert (K : digit_of c = None /\ Ascii.eqb c "." = false /\
              Ascii.eqb c "-" = false /\ Ascii.eqb c "+" = false).
  { destruct c as [[] [] [] [] [] [] [] []]; vm_compute in H |- *;
      first [discriminate H | repeat split]. }
  destruct K as (Kd & Kp & Km & Kq). split.
  - unfold sign.
    destruct c as [[] [] [] [] [] [] [] []]; first [reflexivity | discriminate].
  - intros neg. unfold floatnumber, number, digitpart. rewrite Kd.
    destruct c as [[] [] [] [] [] [] [] []]; first [reflexivity | discriminate].
Qed.

(** X14. An entry field accepts the texts that [float] reads as infinity or
    as not-a-number ("inf", "infinity", "nan" in any letter case, with an
    optional sign, and around them the whitespace [float] skips): the
    field passes validation and the vector handed to the scaler carries
    that infinity or NaN. *)
Theorem non_finite_text_accepted (key w : string) (neg : bool) (r : string)
    (f : float64) :
  sign (skip_spaces w) = (neg, r) ->
  inf_or_nan neg r = Some f ->
  (f = S754_infinity neg \/ f = S754_nan) /\
  float w = Some f /\
  check_entry key w None = ret tt /\
  encode_entry key w None = ret (PyFloat f).
Proof.
  intros Hs Hi.
  destruct (inf_or_nan_first _ _ _ Hi) as (c & t & -> & L & Hkind).
  destruct (letter_starts_no_number c t L) as (_ & Hn).
  assert (Hf : float w = Some f).
  { unfold float. rewrite Hs, (Hn neg). exact Hi. }
  pose proof (float_strip_some w f Hf) as Hf'.
  split; [exact Hkind|]. split; [exact Hf|]. split.
  - rewrite numeric_check, Hf', (truthy_strip_float _ _ Hf'). reflexivity.
  - unfold encode_entry, float_call, widget_get. rewrite Hf. reflexivity.
Qed.

(** ** The trace of a session *)

Lemma predict_session_events (self : App) :
  forallb session_event (fst (predict self)) = true.
Proof.
  destruct (forallb field_valid (entries self)) eqn:Hv.
  - destruct (gather_data_cases self) as [[data Hg] | [e Hg]];
      [|rewrite (predict_gather_raise self e Hv Hg); reflexivity].
    pose proof (predict_body_run self data Hg) as Hrun. cbn zeta in Hrun.
    rewrite (predict_valid self Hv), Hrun.
    destruct (scaler self) as [sc|];
      [destruct (Artifact.transform sc (np_array [data])) as [e|X];
       [|destruct (Dict.get (models self) (model_var self)) as [m|];
         [destruct (Artifact.predict m X) as [e|[|p y]]|]]|];
      reflexivity.
  - destruct (split_first_invalid _ Hv) as (pre & k & w & o & post & msg & Hs & Hp & Hc).
    rewrite (predict_invalid self _ _ _ _ _ _ Hs Hp Hc). reflexivity.
Qed.

Lemma step_events (self : App) (a : action) :
  forallb session_event (fst (step self a)) = true /\
  (List.length (filter is_box (fst (step self a)))
   <= if is_analyze a then 1 else 0)%nat.
Proof.
  destruct a as [key s | key label | tag | |]; cbn [step is_analyze].
  - destruct (Dict.get (entries self) key) as [[w [o|]]|]; cbn; auto.
  - destruct (Dict.get (entries self) key) as [[w [o|]]|]; cbn; auto.
    destruct (Dict.contains o label); cbn; auto.
  - destruct (Dict.contains (models self) tag); cbn; auto.
  - pose proof (predict_session_events self) as He.
    destruct (predict_frame self) as (evs & self' & Hp & _ & _ & _ & _ & Hb & _).
    rewrite Hp in *. cbn [fst] in *. auto.
  - cbn. auto.
Qed.

(** X15. A session reads no file and shows no warning: its events are only
    the "Validation Error" and "Analysis Failed" boxes and the calls of
    the scaler and of a model, and it shows at most one box for each press
    of "Analyze Risk". *)
Theorem session_trace (self : App) (actions : list action) :
  forallb session_event (fst (run self actions)) = true /\
  filter is_load (fst (run self actions)) = [] /\
  filter is_warning (fst (run self actions)) = [] /\
  (List.length (filter is_box (fst (run self actions)))
   <= List.length (filter is_analyze actions))%nat.
Proof.
  assert (Hk : forall evs, forallb session_event evs = true ->
                 filter is_load evs = [] /\ filter is_warning evs = []).
  { induction evs as [|ev r IH]; [auto|]. cbn [forallb filter]. intros H.
    apply andb_true_iff in H as [H1 H2]. destruct (IH H2) as [K1 K2].
    destruct ev; cbn in H1 |- *; try discriminate; auto. }
  assert (Hmain : forallb session_event (fst (run self actions)) = true /\
                  (List.length (filter is_box (fst (run self actions)))
                   <= List.length (filter is_analyze actions))%nat).
  { revert self. induction actions as [|a r IH]; intros self; cbn [run].
    - cbn. auto.
    - destruct (step_events self a) as [H1 H2].
      destruct (step self a) as [evs self1]. cbn [fst] in *.
      destruct (IH self1) as [K1 K2].
      destruct (run self1 r) as [evs' self2]. cbn [fst] in *.
      rewrite forallb_app, filter_app, length_app, H1, K1. split; [reflexivity|].
      cbn [filter]. destruct (is_analyze a); cbn [List.length]; lia. }
  destruct Hmain as [H1 H2]. destruct (Hk _ H1) as [K1 K2]. auto.
Qed.

(** ** The further theorems at sample inputs *)

(** The field table of the application has distinct keys. *)
Lemma create_widgets_rows_witness :
  NoDup (map row_key get_field_definitions) /\
  create_widgets get_field_definitions = map widget_of_row get_field_definitions /\
  Dict.keys (create_widgets get_field_definitions)
  = map row_key get_field_definitions /\
  forallb entry_shows_label (create_widgets get_field_definitions) = true.
Proof.
  assert (H : NoDup (map row_key get_field_definitions)).
  { cbn. repeat constructor; cbn; intuition discriminate. }
  split; [exact H|]. exact (create_widgets_rows get_field_definitions H).
Defined.

(** Clearing the form of the sample application. *)
Lemma clear_fields_resets_witness :
  forallb entry_shows_label (entries sample_app) = true /\
  snd (clear_fields sample_app) = None /\
  clear_fields (fst (clear_fields sample_app)) = clear_fields sample_app.
Proof.
  split; [reflexivity|].
  destruct (clear_fields_resets sample_app eq_refl) as (E & _ & _ & I).
  split; [rewrite E; reflexivity|exact I].
Defined.

(** After clearing the sample application, the age is asked for. *)
Lemma predict_after_clear_witness :
  predict (fst (clear_fields sample_app))
  = ([ShowError "Validation Error" "Age cannot be empty"],
     Return (fst (clear_fields sample_app))).
Proof.
  exact (predict_after_clear sample_app [] "age" "50" (tl (entries sample_app))
           eq_refl eq_refl eq_refl).
Defined.

(** The form with its default values passes validation and is encoded. *)
Lemma encoding_after_validation_witness :
  snd (validate_inputs sample_app) = Return true /\
  forallb padding_skipped (entries sample_app) = true /\
  exists data, gather_data sample_app = ret data /\ encode sample_app = ret (Some data).
Proof.
  split; [reflexivity|]. split; [reflexivity|].
  destruct (encoding_after_validation sample_app eq_refl) as (_ & H).
  exact (H eq_refl).
Defined.

(** The sample application, and the cholesterol set to "abc". *)
Lemma validate_inputs_decides_witness :
  let self := fill_form sample_app [("cholesterol", "abc")] in
  forallb ascii_entry (entries self) = true /\
  forallb entry_ok (entries self) = false /\
  exists msg,
    validate_inputs self = ([ShowError "Validation Error" msg], Return false).
Proof.
  intros self. split; [reflexivity|].
  destruct (validate_inputs_decides self eq_refl) as [[H _] | H].
  - discriminate H.
  - exact H.
Defined.

(** A session after a start-up in which three models loaded. *)
Lemma session_invariant_witness :
  exists app0,
    snd (__init__ sample_fs) = Return app0 /\
    well_formed
      (snd (run app0 [TypeText "age" "abc"; Analyze; Clear; ChooseModel "GA";
                      Choose "sex" "Female"; TypeText "age" "61"; Analyze]))
    = true.
Proof.
  eexists. split; [vm_compute; reflexivity|].
  eapply (session_invariant sample_fs). vm_compute. reflexivity.
Defined.

(** "Analyze Risk" on the sample application. *)
Lemma predict_in_session_witness :
  well_formed sample_app = true /\
  exists evs self', predict sample_app = (evs, Return self').
Proof.
  split; [reflexivity|].
  destruct (predict_in_session sample_app eq_refl)
    as [(pre & key & w & post & msg & _ & _ & H)
       |[(pre & key & w & post & _ & _ & _ & H) | (data & sc & m & _ & _ & _ & H)]].
  - eexists _, _. exact H.
  - eexists _, _. exact H.
  - cbv zeta in H.
    destruct (Artifact.transform sc (np_array [data])) as [e|X];
      [eexists _, _; exact H|].
    destruct (Artifact.predict m X) as [e|[|p y]]; eexists _, _; exact H.
Defined.

(** The text " -Inf " in an entry field. *)
Lemma non_finite_text_accepted_witness :
  float " -Inf " = Some (S754_infinity true) /\
  check_entry "oldpeak" " -Inf " None = ret tt /\
  encode_entry "oldpeak" " -Inf " None = ret (PyFloat (S754_infinity true)).
Proof.
  destruct (non_finite_text_accepted "oldpeak" " -Inf " true "Inf"
              (S754_infinity true) eq_refl eq_refl) as (_ & H).
  exact H.
Defined.
